(** * cv-analyzer: the expiring content cache and the upload handler

    A shallow embedding of [src/main.py].  The Python functions become
    computations in a state-and-exception monad over a [world] that holds
    what the program can observe and change: the wall clock, the cache
    directory [cv_cache/], the temporary directory, the log, and the
    number of requests already sent to the completion service.

    The libraries the program calls (md5, PyPDF2, the completion client,
    the JSON parser, pickle, the arithmetic of floats, the
    temporary-name generator and the framework's exception printer) are
    not part of the repository; they are gathered in the record
    [externals] and every theorem holds for all of them. *)

From Stdlib Require Import QArith Lqa Ascii String.
From stdpp Require Import base gmap strings list fin_maps pretty.

Open Scope string_scope.

(** ** Python values *)

(** What [json.loads] produces, and what the cache stores as a result.
    Finite floats are kept as rationals; a dict keeps its items in
    insertion order. *)
#[warnings="-register-all"]
Inductive json : Type :=
  | JNull
  | JBool (b : bool)
  | JInt (n : Z)
  | JFloat (q : Q)
  | JStr (s : string)
  | JList (l : list json)
  | JDict (items : list (string * json)).

(** Exceptions.  Every class the program meets derives from [Exception];
    [PyError cls msg] is an exception of class [cls] whose [str()] is
    [msg], and [HTTPException] is the framework's. *)
Inductive exn : Type :=
  | PyError (cls : string) (msg : string)
  | HTTPException (status_code : Z) (detail : string).

Inductive result (A : Type) : Type :=
  | Ok (a : A)
  | Raise (e : exn).
Arguments Ok {A} a.
Arguments Raise {A} e.

(** [bool(x)] *)
Definition truthy (x : json) : bool :=
  match x with
  | JNull => false
  | JBool b => b
  | JInt n => negb (n =? 0)%Z
  | JFloat q => negb (Qeq_bool q 0)
  | JStr s => negb (String.eqb s "")
  | JList l => match l with [] => false | _ => true end
  | JDict items => match items with [] => false | _ => true end
  end.

(** [len(x)] *)
Definition py_len (x : json) : result nat :=
  match x with
  | JStr s => Ok (String.length s)
  | JList l => Ok (length l)
  | JDict items => Ok (length items)
  | JNull => Raise (PyError "TypeError" "object of type 'NoneType' has no len()")
  | JBool _ => Raise (PyError "TypeError" "object of type 'bool' has no len()")
  | JInt _ => Raise (PyError "TypeError" "object of type 'int' has no len()")
  | JFloat _ => Raise (PyError "TypeError" "object of type 'float' has no len()")
  end.

(** The line break ["\n"]. *)
Definition LF : string := String (ascii_of_nat 10) "".

(** [s.lower()] on ASCII letters *)
Definition lower_ascii (c : ascii) : ascii :=
  let n := nat_of_ascii c in
  if (65 <=? n)%nat && (n <=? 90)%nat then ascii_of_nat (n + 32) else c.

Fixpoint lower (s : string) : string :=
  match s with
  | EmptyString => EmptyString
  | String c s' => String (lower_ascii c) (lower s')
  end.

(** [s.endswith(suffix)] *)
Definition endswith (s suffix : string) : bool :=
  let n := String.length s in
  let m := String.length suffix in
  (m <=? n)%nat && String.eqb (substring (n - m) m s) suffix.

(** ** The world *)

(** What [pickle.load] makes of a cache record: the pair written by
    [save_to_cache], or bytes on which loading or unpacking raises
    [error] (an empty or truncated file, a foreign pickle).  A time is
    the number of seconds a float stands for; the subtraction of two
    times rounds, as [float_sub] of the [externals] has it. *)
Inductive record_data : Type :=
  | Pickled (timestamp : Q) (result : json)
  | Corrupt (error : exn).

(** A file of the cache directory with its permission bits. *)
Record cache_record : Type := mkFile {
  data : record_data;
  readable : bool;
  writable : bool
}.

Inductive level : Type := DEBUG | INFO | WARNING | ERROR.

(** Calls of the four helpers, recorded so that "is not invoked" can be
    stated; the program itself keeps no such list. *)
Inductive call : Type :=
  | CallGet (file_hash : string)
  | CallSave (file_hash : string) (result : json)
  | CallExtract (file_path : string)
  | CallGenerate (cv_text : string).

Record world : Type := mkWorld {
  now : Q;                               (* what time.time() returns *)
  cache_dir_searchable : bool;           (* may names be looked up in cv_cache/ *)
  cache_files : gmap string cache_record;(* cv_cache/: file name -> file *)
  cache_dir_writable : bool;             (* may entries be created or removed *)
  tmp_dir : gmap string (list Byte.byte);(* the temporary directory *)
  api_requests : nat;                    (* completion requests sent so far *)
  log : list (level * string);           (* emitted log records, oldest first *)
  calls : list call                      (* helper calls, oldest first *)
}.

(** The files that can be reached through [cv_cache/]: all that it holds
    while the directory is searchable, none when it is not (every [stat],
    [open] and [unlink] of a name in it is then refused). *)
Definition cache_dir (w : world) : gmap string cache_record :=
  if cache_dir_searchable w then cache_files w else ∅.
Arguments cache_dir : simpl never.

Definition set_now (t : Q) (w : world) : world :=
  mkWorld t (cache_dir_searchable w) (cache_files w) (cache_dir_writable w) (tmp_dir w)
          (api_requests w) (log w) (calls w).

(** The files of a searchable [cv_cache/] become [d]. *)
Definition set_cache_dir (d : gmap string cache_record) (w : world) : world :=
  mkWorld (now w) (cache_dir_searchable w) d (cache_dir_writable w) (tmp_dir w)
          (api_requests w) (log w) (calls w).

Definition set_tmp_dir (d : gmap string (list Byte.byte)) (w : world) : world :=
  mkWorld (now w) (cache_dir_searchable w) (cache_files w) (cache_dir_writable w) d
          (api_requests w) (log w) (calls w).

Definition set_api_requests (n : nat) (w : world) : world :=
  mkWorld (now w) (cache_dir_searchable w) (cache_files w) (cache_dir_writable w)
          (tmp_dir w) n (log w) (calls w).

Definition add_log (r : level * string) (w : world) : world :=
  mkWorld (now w) (cache_dir_searchable w) (cache_files w) (cache_dir_writable w)
          (tmp_dir w) (api_requests w) (log w ++ [r]) (calls w).

Definition add_call (c : call) (w : world) : world :=
  mkWorld (now w) (cache_dir_searchable w) (cache_files w) (cache_dir_writable w)
          (tmp_dir w) (api_requests w) (log w) (calls w ++ [c]).

(** ** The monad: state passing with exceptions *)

Definition M (A : Type) : Type := world -> result A * world.

Definition ret {A} (a : A) : M A := fun w => (Ok a, w).

Definition raise {A} (e : exn) : M A := fun w => (Raise e, w).

Definition bind {A B} (m : M A) (k : A -> M B) : M B :=
  fun w =>
    match m w with
    | (Ok a, w') => k a w'
    | (Raise e, w') => (Raise e, w')
    end.

(** [try: m except Exception as e: h e].  What [m] did to the world
    before it raised stays done. *)
Definition try_except {A} (m : M A) (h : exn -> M A) : M A :=
  fun w =>
    match m w with
    | (Ok a, w') => (Ok a, w')
    | (Raise e, w') => h e w'
    end.

(** A library call that may raise but leaves the world alone. *)
Definition lift {A} (r : result A) : M A := fun w => (r, w).

Declare Scope py_scope.
Delimit Scope py_scope with py.
Notation "x <- m ;; k" := (bind m (fun x => k))
  (at level 100, m at next level, right associativity) : py_scope.
Notation "m ;; k" := (bind m (fun _ => k))
  (at level 100, right associativity) : py_scope.
Open Scope py_scope.

(** ** Logging, the clock and the file system

    File operations fail on permissions only: a record that may not be
    read or written, a cache directory in which entries may not be
    created or removed, or in which names may not be looked up at all.
    The temporary directory is taken to be usable, and a full disk is not
    modelled. *)

(** [OSError]s as Python prints them. *)
Definition permission_denied (path : string) : exn :=
  PyError "PermissionError" ("[Errno 13] Permission denied: '" +:+ path +:+ "'").

Definition no_such_file (path : string) : exn :=
  PyError "FileNotFoundError" ("[Errno 2] No such file or directory: '" +:+ path +:+ "'").

(** [CACHE_DIR / name] *)
Definition cache_path (name : string) : string := "cv_cache/" +:+ name.

(** What [pickle.load] raises on the empty file that [open(..., "wb")]
    leaves. *)
Definition ran_out_of_input : exn := PyError "EOFError" "Ran out of input".

(** What [pickle.dump] raises on a value nested deeper than the
    interpreter's recursion limit lets it follow. *)
Definition too_deep_to_pickle : exn :=
  PyError "RecursionError" "maximum recursion depth exceeded while pickling an object".

(** What the operating system answers for a name that [cache_dir] does
    not hold: there is no such file, or the directory may not be
    searched. *)
Definition not_reached (name : string) (w : world) : exn :=
  if cache_dir_searchable w then no_such_file (cache_path name)
  else permission_denied (cache_path name).

(** [logging.basicConfig(level=logging.INFO)]: records below INFO are
    dropped. *)
Definition enabled (l : level) : bool :=
  match l with DEBUG => false | _ => true end.

Definition logger (l : level) (msg : string) : M unit :=
  fun w => (Ok tt, if enabled l then add_log (l, msg) w else w).

Definition trace (c : call) : M unit := fun w => (Ok tt, add_call c w).

Definition time_time : M Q := fun w => (Ok (now w), w).

(** [cache_file.exists()]: [Path.exists] answers [False] for a name that
    is not there, and lets the [PermissionError] of [stat] through when
    the directory may not be searched. *)
Definition path_exists (name : string) : M bool :=
  fun w =>
    if cache_dir_searchable w
    then (Ok (bool_decide (is_Some (cache_dir w !! name))), w)
    else (Raise (permission_denied (cache_path name)), w).

(** [open(cache_file, "rb")] followed by [pickle.load(f)] and the
    unpacking [timestamp, result = ...]. *)
Definition read_pickle (name : string) : M (Q * json) :=
  fun w =>
    match cache_dir w !! name with
    | None => (Raise (not_reached name w), w)
    | Some f =>
        if readable f then
          match data f with
          | Pickled timestamp result => (Ok (timestamp, result), w)
          | Corrupt error => (Raise error, w)
          end
        else (Raise (permission_denied (cache_path name)), w)
    end.

(** [cache_file.unlink()] *)
Definition unlink (name : string) : M unit :=
  fun w =>
    match cache_dir w !! name with
    | None => (Raise (not_reached name w), w)
    | Some _ =>
        if cache_dir_writable w then (Ok tt, set_cache_dir (delete name (cache_dir w)) w)
        else (Raise (permission_denied (cache_path name)), w)
    end.

(** [open(cache_file, "wb")]: truncates an existing writable file, creates
    a missing one when the directory may be searched and written. *)
Definition open_wb (name : string) : M unit :=
  fun w =>
    match cache_dir w !! name with
    | Some f =>
        if writable f then
          (Ok tt, set_cache_dir
                    (<[name := mkFile (Corrupt ran_out_of_input) (readable f) true]>
                       (cache_dir w)) w)
        else (Raise (permission_denied (cache_path name)), w)
    | None =>
        if cache_dir_searchable w && cache_dir_writable w then
          (Ok tt, set_cache_dir
                    (<[name := mkFile (Corrupt ran_out_of_input) true true]>
                       (cache_dir w)) w)
        else (Raise (permission_denied (cache_path name)), w)
    end.

(** [pickle.dump((timestamp, result), f)] into the file opened by
    [open_wb].  A value that pickle cannot follow to its bottom raises,
    and the file is left without a whole pickle: empty as [open_wb] left
    it, or holding the frames written before the error.  [leftover] is
    what [pickle.load] raises on it. *)
Definition pickle_dump (picklable : json -> bool) (leftover : json -> exn)
    (name : string) (timestamp : Q) (result : json) : M unit :=
  fun w =>
    match cache_dir w !! name with
    | Some f =>
        if picklable result then
          (Ok tt, set_cache_dir
                    (<[name := mkFile (Pickled timestamp result) (readable f) (writable f)]>
                       (cache_dir w)) w)
        else
          (Raise too_deep_to_pickle,
           set_cache_dir
             (<[name := mkFile (Corrupt (leftover result)) (readable f) (writable f)]>
                (cache_dir w)) w)
    | None => (Raise (PyError "ValueError" "I/O operation on closed file"), w)
    end.

(** [open(file_path, 'rb')] on a temporary file *)
Definition open_rb_tmp (file_path : string) : M (list Byte.byte) :=
  fun w =>
    match tmp_dir w !! file_path with
    | Some bytes => (Ok bytes, w)
    | None => (Raise (no_such_file file_path), w)
    end.

(** [os.unlink(temp_file_path)] *)
Definition os_unlink (file_path : string) : M unit :=
  fun w =>
    match tmp_dir w !! file_path with
    | Some _ => (Ok tt, set_tmp_dir (delete file_path (tmp_dir w)) w)
    | None => (Raise (no_such_file file_path), w)
    end.

(** ** The libraries the program calls *)

(** A PDF as PyPDF2 presents it: its pages in order, each page being what
    [page.extract_text()] returns or raises. *)
Definition pdf_pages : Type := list (result string).

Record externals : Type := mkExternals {
  (* hashlib.md5(content).hexdigest() *)
  md5_hexdigest : list Byte.byte -> string;
  (* PyPDF2.PdfReader(pdf_file).pages, or the error of an unparseable file *)
  PdfReader : list Byte.byte -> result pdf_pages;
  (* client.chat.completions.create(...).choices[0].message.content for
     the request numbered by the requests sent before it, given the user
     message *)
  chat_completion : nat -> string -> result string;
  (* json.loads(content) *)
  json_loads : string -> result json;
  (* str(HTTPException(status_code, detail)) *)
  HTTPException_str : Z -> string -> string;
  (* the name tempfile picks, given the names in use *)
  mkstemp : gset string -> string;
  mkstemp_fresh : forall names : gset string, mkstemp names ∉ names;
  (* whether pickle.dump serialises the value: it does unless the value
     is nested deeper than the recursion limit allows *)
  picklable : json -> bool;
  (* what pickle.load raises on the file that a failed pickle.dump of the
     value left: EOFError on an empty file, UnpicklingError on a
     truncated one *)
  dump_leftover : json -> exn;
  (* x - y on floats: the difference rounded to the nearest float; the
     rounding is monotone and an integer of at most 53 bits is a float,
     so the result is never on the other side of such an integer *)
  float_sub : Q -> Q -> Q;
  float_sub_le : forall (x y : Q) (n : Z),
    (Z.abs n <= 2 ^ 53)%Z -> (x - y <= inject_Z n)%Q -> (float_sub x y <= inject_Z n)%Q;
  float_sub_ge : forall (x y : Q) (n : Z),
    (Z.abs n <= 2 ^ 53)%Z -> (inject_Z n <= x - y)%Q -> (inject_Z n <= float_sub x y)%Q
}.

(** [CACHE_EXPIRY = 60 * 60 * 24 * 7], in seconds *)
Definition CACHE_EXPIRY : Z := 60 * 60 * 24 * 7.

(** [x > y] on numbers *)
Definition Qgtb (x y : Q) : bool := negb (Qle_bool x y).

(** [for i, page in enumerate(pdf_reader.pages): ... text += page_text + "\n"] *)
Fixpoint extract_pages (page_count : nat) (pages : pdf_pages) (i : nat)
    (text : string) : M string :=
  match pages with
  | [] => ret text
  | page :: rest =>
      logger DEBUG ("Extracting text from page " +:+ pretty (i + 1)%nat +:+ "/"
                    +:+ pretty page_count) ;;
      page_text <- lift page ;;
      extract_pages page_count rest (S i) (text +:+ (page_text +:+ LF))
  end.

Section Program.

Variable E : externals.

(** [str(e)] *)
Definition str (e : exn) : string :=
  match e with
  | PyError _ msg => msg
  | HTTPException status_code detail => HTTPException_str E status_code detail
  end.

Definition get_file_hash (content : list Byte.byte) : string :=
  md5_hexdigest E content.

(** The body of the [try] of [get_from_cache]. *)
Definition load_entry (file_hash cache_file : string) : M (option json) :=
  entry <- read_pickle cache_file ;;
  let '(timestamp, result) := entry in
  t <- time_time ;;
  if Qgtb (float_sub E t timestamp) (inject_Z CACHE_EXPIRY) then
    logger INFO ("Cache expired for hash " +:+ file_hash) ;;
    unlink cache_file ;;
    ret None
  else
    logger INFO ("Cache hit: Using cached result for hash " +:+ file_hash) ;;
    ret (Some result).

Definition get_from_cache (file_hash : string) : M (option json) :=
  trace (CallGet file_hash) ;;
  let cache_file := file_hash +:+ ".pkl" in
  found <- path_exists cache_file ;;
  if negb found then
    logger DEBUG ("Cache miss: No cache file for hash " +:+ file_hash) ;;
    ret None
  else
    try_except
      (load_entry file_hash cache_file)
      (fun e =>
         logger ERROR ("Error reading cache: " +:+ str e) ;;
         ret None).

(** The body of the [try] of [save_to_cache]. *)
Definition dump_entry (file_hash cache_file : string) (result : json) : M unit :=
  open_wb cache_file ;;
  t <- time_time ;;
  pickle_dump (picklable E) (dump_leftover E) cache_file t result ;;
  logger INFO ("Saved result to cache for hash " +:+ file_hash).

Definition save_to_cache (file_hash : string) (result : json) : M unit :=
  trace (CallSave file_hash result) ;;
  let cache_file := file_hash +:+ ".pkl" in
  try_except
    (dump_entry file_hash cache_file result)
    (fun e =>
       logger ERROR ("Error saving to cache: " +:+ str e)).

Definition extract_text_from_pdf (file_path : string) : M string :=
  trace (CallExtract file_path) ;;
  let text := "" in
  try_except
    (logger INFO ("Starting text extraction from PDF: " +:+ file_path) ;;
     pdf_file <- open_rb_tmp file_path ;;
     pages <- lift (PdfReader E pdf_file) ;;
     let page_count := length pages in
     logger INFO ("PDF has " +:+ pretty page_count +:+ " pages") ;;
     text <- extract_pages page_count pages 0 text ;;
     logger INFO ("Text extraction complete. Extracted "
                  +:+ pretty (String.length text) +:+ " characters") ;;
     ret text)
    (fun e =>
       logger ERROR ("Failed to extract text from PDF: " +:+ str e) ;;
       raise (PyError "Exception" ("Failed to extract text from PDF: " +:+ str e))).

(** The request to the completion service; it counts as sent whether or
    not it succeeds. *)
Definition chat_completions_create (user_content : string) : M string :=
  fun w => (chat_completion E (api_requests w) user_content,
            set_api_requests (S (api_requests w)) w).

(** The user message of the request,
    [f"Analyze this CV text and extract structured information as JSON:\n\n{cv_text}"] *)
Definition user_content (cv_text : string) : string :=
  "Analyze this CV text and extract structured information as JSON:"
  +:+ LF +:+ LF +:+ cv_text.

(** What the three library calls of [generate_json_from_text] yield for
    the request numbered [n]: the parsed answer, or the first error
    among the request, [json.loads] and [len]. *)
Definition structuring_outcome (n : nat) (cv_text : string) : result json :=
  match chat_completion E n (user_content cv_text) with
  | Ok content =>
      match json_loads E content with
      | Ok json_data =>
          match py_len json_data with
          | Ok _ => Ok json_data
          | Raise e => Raise e
          end
      | Raise e => Raise e
      end
  | Raise e => Raise e
  end.

Definition generate_json_from_text (cv_text : string) : M json :=
  trace (CallGenerate cv_text) ;;
  try_except
    (logger INFO ("Sending CV text to OpenAI API (length: "
                  +:+ pretty (String.length cv_text) +:+ " chars)") ;;
     content <- chat_completions_create (user_content cv_text) ;;
     logger INFO "Received response from OpenAI API" ;;
     json_data <- lift (json_loads E content) ;;
     n <- lift (py_len json_data) ;;
     logger INFO ("Successfully parsed JSON response with " +:+ pretty n
                  +:+ " top-level fields") ;;
     ret json_data)
    (fun e =>
       logger ERROR ("OpenAI API error: " +:+ str e) ;;
       raise (PyError "Exception" ("OpenAI API error: " +:+ str e))).

(** The outcome of the test [if cached_result:] seen from its [else]
    side: the lookup returned [None] or a value that is falsy.  A lookup
    that raises does not reach the test. *)
Definition cache_miss (file_hash : string) (w : world) : bool :=
  match fst (get_from_cache file_hash w) with
  | Ok (Some hit) => negb (truthy hit)
  | Ok None => true
  | Raise _ => false
  end.

(** [fastapi.UploadFile]: the file name and the bytes [await file.read()]
    yields. *)
Record UploadFile : Type := mkUploadFile {
  filename : string;
  file_bytes : list Byte.byte
}.

(** [with tempfile.NamedTemporaryFile(delete=False, suffix=".pdf") as
    temp_file: temp_file.write(content); temp_file_path = temp_file.name] *)
Definition NamedTemporaryFile (content : list Byte.byte) : M string :=
  fun w =>
    let name := mkstemp E (dom (tmp_dir w)) in
    (Ok name, set_tmp_dir (<[name := content]> (tmp_dir w)) w).

(** The statements of [upload_cv] that follow the cache test. *)
Definition process_upload (content : list Byte.byte) (file_hash : string) : M json :=
  logger INFO "Saving uploaded file to temporary location" ;;
  temp_file_path <- NamedTemporaryFile content ;;
  logger INFO ("Temporary file saved at: " +:+ temp_file_path) ;;
  cv_text <- extract_text_from_pdf temp_file_path ;;
  logger INFO ("Removing temporary file: " +:+ temp_file_path) ;;
  os_unlink temp_file_path ;;
  if negb (String.eqb cv_text "") then
    logger INFO "Starting JSON generation from extracted text" ;;
    extracted_json <- generate_json_from_text cv_text ;;
    logger INFO "Successfully generated JSON from CV" ;;
    save_to_cache file_hash extracted_json ;;
    ret extracted_json
  else
    logger ERROR "Failed to extract text from PDF" ;;
    raise (HTTPException 400 "Could not extract text from the PDF").

(** The body of the [try] of [upload_cv].  The test [if cached_result:]
    holds when the lookup returned a value and the value is truthy. *)
Definition upload_cv_body (file : UploadFile) : M json :=
  let content := file_bytes file in
  let file_hash := get_file_hash content in
  logger INFO ("Generated hash for file: " +:+ file_hash) ;;
  cached_result <- get_from_cache file_hash ;;
  match cached_result with
  | Some hit =>
      if truthy hit then
        logger INFO ("Returning cached result for file " +:+ filename file) ;;
        ret hit
      else process_upload content file_hash
  | None => process_upload content file_hash
  end.

(** [upload_cv]: an exception that leaves it is the framework's error
    response (here the 400), a returned value is the body of a 200. *)
Definition upload_cv (file : UploadFile) : M json :=
  logger INFO ("Received file upload: " +:+ filename file) ;;
  if negb (endswith (lower (filename file)) ".pdf") then
    logger WARNING ("Rejected non-PDF file: " +:+ filename file) ;;
    raise (HTTPException 400 "Only PDF files are accepted")
  else
    try_except
      (upload_cv_body file)
      (fun e =>
         logger ERROR ("Error processing CV: " +:+ str e) ;;
         ret (JDict [("error", JStr (str e))])).

End Program.

(** ** Sample inputs

    One concrete environment and a few worlds on which the statements
    below are evaluated.  Every example uploads the same eight bytes,
    [%PDF-1.4], whose md5 digest is the one given here.  The times of the
    examples are whole seconds, whose differences no rounding touches,
    and pickle is taken to give up at 500 levels of nesting, before it
    has written anything. *)

(** How deep the lists and dicts of a value are nested. *)
Fixpoint json_depth (x : json) : nat :=
  match x with
  | JList l => S (foldr (fun v d => Nat.max (json_depth v) d) 0%nat l)
  | JDict items => S (foldr (fun kv d => Nat.max (json_depth (snd kv)) d) 0%nat items)
  | _ => 0%nat
  end.

(** [[[...[]...]]], [n] lists around the empty one. *)
Fixpoint nested (n : nat) : json :=
  match n with
  | O => JList []
  | S n' => JList [nested n']
  end.

Definition sample_bytes : list Byte.byte :=
  [Byte.x25; Byte.x50; Byte.x44; Byte.x46; Byte.x2d; Byte.x31; Byte.x2e; Byte.x34].

Definition sample_hash : string := "914240125319291c7cb7e712e419b254".

Definition sample_externals (pdf : result pdf_pages) (completion : nat -> result string)
    (parsed : string -> result json) : externals :=
  mkExternals (fun _ => sample_hash) (fun _ => pdf) (fun n _ => completion n) parsed
              (fun status_code detail => pretty status_code +:+ ": " +:+ detail)
              fresh is_fresh
              (fun v => (json_depth v <? 500)%nat) (fun _ => ran_out_of_input)
              Qminus (fun _ _ _ _ H => H) (fun _ _ _ _ H => H).

(** An environment for statements about the cache alone. *)
Definition cache_externals : externals :=
  sample_externals (Ok []) (fun _ => Ok "{}") (fun _ => Ok (JDict [])).

Definition john_doe : json :=
  JDict [("name", JStr "John Doe"); ("title", JStr "Engineer")].

(** An empty cache at time 1000. *)
Definition fresh_world : world := mkWorld 1000 true ∅ true ∅ 0 [] [].

(** The same, with a cache directory in which nothing can be created or
    removed. *)
Definition read_only_world : world := mkWorld 1000 true ∅ false ∅ 0 [] [].

(** A record stored at time 1000, looked up one second after its seven
    days, in a cache directory that does not allow removal. *)
Definition stale_read_only_world : world :=
  mkWorld 605801 true {[ "abc.pkl" := mkFile (Pickled 1000 john_doe) true true ]}
          false ∅ 0 [] [].

(** The same in a directory that allows it. *)
Definition stale_world : world :=
  mkWorld 605801 true {[ "abc.pkl" := mkFile (Pickled 1000 john_doe) true true ]}
          true ∅ 0 [] [].

(** A record that cannot be opened for reading. *)
Definition unreadable_world : world :=
  mkWorld 2000 true {[ "abc.pkl" := mkFile (Pickled 1000 john_doe) false true ]}
          true ∅ 0 [] [].

(** The same record, fresh and readable, in a cache directory that may
    not be searched. *)
Definition unsearchable_world : world :=
  mkWorld 2000 false {[ "abc.pkl" := mkFile (Pickled 1000 john_doe) true true ]}
          true ∅ 0 [] [].

(** ** Reading the permission bits *)

(** [open(name, "wb")] succeeds. *)
Definition can_write (name : string) (w : world) : bool :=
  match cache_dir w !! name with
  | Some f => writable f
  | None => cache_dir_searchable w && cache_dir_writable w
  end.

(** After a write, [open(name, "rb")] succeeds: an existing file keeps
    its read bit, a created one is readable. *)
Definition can_read_back (name : string) (w : world) : bool :=
  match cache_dir w !! name with
  | Some f => readable f
  | None => true
  end.

(** ** Extraction without the world *)

(** The text the loop of [extract_text_from_pdf] builds from the pages,
    or the error of the first page that fails.  [extract_pages] computes
    it and leaves the world alone (lemma [extract_pages_pure]). *)
Fixpoint pages_text (pages : pdf_pages) (text : string) : result string :=
  match pages with
  | [] => Ok text
  | Ok page_text :: rest => pages_text rest (text +:+ (page_text +:+ LF))
  | Raise e :: _ => Raise e
  end.

(** The output shape in the words of the specification: the page texts
    joined with a line break, as ["\n".join(texts)] does. *)
Definition join_lines (texts : list string) : string := String.concat LF texts.

(** A temporary file holding the sample bytes. *)
Definition tmp_world : world :=
  mkWorld 1000 true ∅ true {[ "tmp0.pdf" := sample_bytes ]} 0 [] [].

(** A PDF of two pages, [Alice] and [Bob]. *)
Definition two_page_externals : externals :=
  sample_externals (Ok [Ok "Alice"; Ok "Bob"]) (fun _ => Ok "{}") (fun _ => Ok (JDict [])).

(** ** Telling the calls apart *)

(** A call of the text extractor or of the structuring service. *)
Definition is_processing_call (c : call) : bool :=
  match c with
  | CallExtract _ | CallGenerate _ => true
  | CallGet _ | CallSave _ _ => false
  end.

(** The calls recorded in [w'] since [w]. *)
Definition calls_since (w w' : world) : list call :=
  drop (length (calls w)) (calls w').

(** The upload of the examples. *)
Definition cv_pdf : UploadFile := mkUploadFile "cv.pdf" sample_bytes.

(** The scenario of the specification: one page of text, structured as
    [john_doe] (the answer is written here with apostrophes for its
    quotation marks). *)
Definition john_doe_externals : externals :=
  sample_externals (Ok [Ok "John Doe, Engineer..."])
    (fun _ => Ok "{'name': 'John Doe', 'title': 'Engineer'}")
    (fun _ => Ok john_doe).

(** The same page, structured as the empty object. *)
Definition empty_result_externals : externals :=
  sample_externals (Ok [Ok "John Doe, Engineer..."])
    (fun _ => Ok "{}") (fun _ => Ok (JDict [])).

(** Bytes that PyPDF2 cannot parse. *)
Definition unparseable_externals : externals :=
  sample_externals (Raise (PyError "PdfReadError" "EOF marker not found"))
    (fun _ => Ok "{}") (fun _ => Ok (JDict [])).

(** A PDF without pages. *)
Definition no_page_externals : externals :=
  sample_externals (Ok []) (fun _ => Ok "{}") (fun _ => Ok (JDict [])).

(** A readable, unexpired record holding the empty object for the
    sample upload. *)
Definition empty_hit_world : world :=
  mkWorld 2000 true {[ sample_hash +:+ ".pkl" := mkFile (Pickled 1000 (JDict [])) true true ]}
          true ∅ 1 [] [].

(** An upload under a name that is not a PDF's. *)
Definition resume_docx : UploadFile := mkUploadFile "resume.docx" sample_bytes.

(** ** Start-up

    The module-level statements that read the configuration: the API key
    and the base URL come from the environment, as [load_dotenv] has
    left it, and the client is built from them.  The creation of
    [cv_cache/] is not part of the world. *)

(** [os.getenv(key, default)] *)
Definition os_getenv (environ : gmap string string) (key : string)
    (default : option string) : option string :=
  match environ !! key with
  | Some value => Some value
  | None => default
  end.

(** What [openai.Client(api_key=..., base_url=...)] is given. *)
Record client : Type := mkClient {
  api_key : string;
  base_url : option string
}.

(** [OPENAI_API_KEY = os.getenv("OPENAI_API_KEY")],
    [BASE_URL = os.getenv("OPENAI_BASE_URL", "https://api.openai.com/v1/")],
    [if not OPENAI_API_KEY: logger.error(...); raise ValueError(...)],
    [client = openai.Client(...)].  [not OPENAI_API_KEY] holds for [None]
    and for the empty string. *)
Definition startup (environ : gmap string string) : M client :=
  let OPENAI_API_KEY := os_getenv environ "OPENAI_API_KEY" None in
  let BASE_URL := os_getenv environ "OPENAI_BASE_URL" (Some "https://api.openai.com/v1/") in
  match OPENAI_API_KEY with
  | Some key =>
      if String.eqb key "" then
        logger ERROR "OPENAI_API_KEY not found in environment variables" ;;
        raise (PyError "ValueError" "OPENAI_API_KEY must be set in environment variables")
      else ret (mkClient key BASE_URL)
  | None =>
      logger ERROR "OPENAI_API_KEY not found in environment variables" ;;
      raise (PyError "ValueError" "OPENAI_API_KEY must be set in environment variables")
  end.

(** ** More sample inputs *)

(** A record stored at time 1000, looked up at the very end of its seven
    days. *)
Definition boundary_world : world :=
  mkWorld 605800 true {[ "abc.pkl" := mkFile (Pickled 1000 john_doe) true true ]}
          true ∅ 0 [] [].

(** The structuring service answers with the number 42. *)
Definition scalar_answer_externals : externals :=
  sample_externals (Ok [Ok "John Doe, Engineer..."])
    (fun _ => Ok "42") (fun _ => Ok (JInt 42)).

(** The record of the sample upload holds [john_doe], stored at time
    1000; it is now 2000, and another record lies beside it. *)
Definition john_doe_cached_world : world :=
  mkWorld 2000 true
          {[ sample_hash +:+ ".pkl" := mkFile (Pickled 1000 john_doe) true true;
             "abc.pkl" := mkFile (Pickled 1000 (JDict [])) true true ]}
          true ∅ 1 [] [].

(** An empty cache directory that may not be searched. *)
Definition locked_world : world := mkWorld 1000 false ∅ true ∅ 0 [] [].

(** The record of the sample upload can be written but not read. *)
Definition write_only_world : world :=
  mkWorld 1000 true {[ sample_hash +:+ ".pkl" := mkFile (Pickled 900 john_doe) false true ]}
          true ∅ 0 [] [].

(** The structuring service answers with 600 lists, one in the other. *)
Definition deep_answer_externals : externals :=
  sample_externals (Ok [Ok "John Doe, Engineer..."])
    (fun _ => Ok "[[[...]]]") (fun _ => Ok (nested 600)).

(** The sample upload under another name. *)
Definition cv_upper : UploadFile := mkUploadFile "Resume (final).PDF" sample_bytes.

(** An environment with a key and no base URL, and one whose key is the
    empty string. *)
Definition environ_with_key : gmap string string := {[ "OPENAI_API_KEY" := "sk-test" ]}.

Definition environ_empty_key : gmap string string :=
  {[ "OPENAI_API_KEY" := ""; "OPENAI_BASE_URL" := "http://localhost:8000/v1/" ]}.

(* ================================================================== *)
(** * Theorems *)

(** ** Strings *)

Lemma append_cons (x : ascii) (a b : string) : String x a +:+ b = String x (a +:+ b).
Proof. reflexivity. Qed.

Lemma append_nil_l (a : string) : "" +:+ a = a.
Proof. reflexivity. Qed.

Lemma append_assoc (a b c : string) : (a +:+ b) +:+ c = a +:+ (b +:+ c).
Proof.
  induction a as [|x a IH]; [reflexivity|].
  rewrite !append_cons, IH. reflexivity.
Qed.

Lemma append_nil_r (a : string) : a +:+ "" = a.
Proof.
  induction a as [|x a IH]; [reflexivity|].
  rewrite append_cons, IH. reflexivity.
Qed.

Lemma length_append (a b : string) :
  String.length (a +:+ b) = (String.length a + String.length b)%nat.
Proof.
  induction a as [|x a IH]; [reflexivity|].
  rewrite append_cons. cbn. rewrite IH. reflexivity.
Qed.

Local Arguments pretty : simpl never.

Ltac unfold_py :=
  unfold bind, ret, raise, try_except, lift, logger, trace, time_time,
         path_exists, read_pickle, unlink, open_wb, pickle_dump,
         open_rb_tmp, os_unlink in *.

(** ** Comparison of times *)

Lemma Qgtb_true (x y : Q) : Qgtb x y = true <-> (y < x)%Q.
Proof.
  unfold Qgtb. rewrite negb_true_iff. split.
  - intros H. apply Qnot_le_lt. intros Hle.
    apply Qle_bool_iff in Hle. congruence.
  - intros H. destruct (Qle_bool x y) eqn:Hb; [|reflexivity].
    apply Qle_bool_iff in Hb. exfalso. apply (Qlt_not_le _ _ H Hb).
Qed.

Lemma Qgtb_false (x y : Q) : Qgtb x y = false <-> (x <= y)%Q.
Proof.
  unfold Qgtb. rewrite negb_false_iff. apply Qle_bool_iff.
Qed.

(** ** The files that can be reached *)

Lemma cache_dir_add_log (r : level * string) (w : world) :
  cache_dir (add_log r w) = cache_dir w.
Proof. reflexivity. Qed.

Lemma cache_dir_add_call (c : call) (w : world) :
  cache_dir (add_call c w) = cache_dir w.
Proof. reflexivity. Qed.

Lemma cache_dir_set_now (t : Q) (w : world) :
  cache_dir (set_now t w) = cache_dir w.
Proof. reflexivity. Qed.

Lemma cache_dir_set_tmp_dir (d : gmap string (list Byte.byte)) (w : world) :
  cache_dir (set_tmp_dir d w) = cache_dir w.
Proof. reflexivity. Qed.

Lemma cache_dir_set_api_requests (n : nat) (w : world) :
  cache_dir (set_api_requests n w) = cache_dir w.
Proof. reflexivity. Qed.

Lemma cache_dir_set_cache_dir (d : gmap string cache_record) (w : world) :
  cache_dir_searchable w = true -> cache_dir (set_cache_dir d w) = d.
Proof. intros H. unfold cache_dir. cbn. rewrite H. reflexivity. Qed.

Lemma set_cache_dir_twice (d d' : gmap string cache_record) (w : world) :
  set_cache_dir d' (set_cache_dir d w) = set_cache_dir d' w.
Proof. reflexivity. Qed.

Lemma searchable_of_lookup (w : world) (name : string) (f : cache_record) :
  cache_dir w !! name = Some f -> cache_dir_searchable w = true.
Proof.
  unfold cache_dir. destruct (cache_dir_searchable w); [reflexivity|].
  rewrite lookup_empty. discriminate.
Qed.

Lemma unsearchable_lookup (w : world) (name : string) :
  cache_dir_searchable w = false -> cache_dir w !! name = None.
Proof. intros H. unfold cache_dir. rewrite H. apply lookup_empty. Qed.

Lemma can_write_searchable (name : string) (w : world) :
  can_write name w = true -> cache_dir_searchable w = true.
Proof.
  unfold can_write. destruct (cache_dir w !! name) as [f|] eqn:H.
  - intros _. eapply searchable_of_lookup, H.
  - intros Hw. apply andb_true_iff in Hw. tauto.
Qed.

Create Rewrite HintDb world.

#[local] Hint Rewrite cache_dir_add_log cache_dir_add_call cache_dir_set_now
  cache_dir_set_tmp_dir cache_dir_set_api_requests : world.

Ltac wsimpl := cbn; autorewrite with world; cbn.

Tactic Notation "wsimpl" "in" hyp(H) :=
  cbn in H; autorewrite with world in H; cbn in H.

Tactic Notation "wsimpl" "in" "*" :=
  cbn in *; autorewrite with world in *; cbn in *.

Section Cache.

Variable E : externals.

(** *** The age of a record, as the code computes it *)

Lemma CACHE_EXPIRY_is_a_float : (Z.abs CACHE_EXPIRY <= 2 ^ 53)%Z.
Proof. vm_compute. discriminate. Qed.

(** Seven days or less on the clock are seven days or less for the
    code. *)
Lemma fresh_of_age (t T : Q) :
  (t - T <= inject_Z CACHE_EXPIRY)%Q ->
  Qgtb (float_sub E t T) (inject_Z CACHE_EXPIRY) = false.
Proof.
  intros H. apply Qgtb_false, float_sub_le; [apply CACHE_EXPIRY_is_a_float | exact H].
Qed.

(** Seven days and a second on the clock are more than seven days for
    the code. *)
Lemma expired_of_age (t T : Q) :
  (T + inject_Z CACHE_EXPIRY + 1 <= t)%Q ->
  Qgtb (float_sub E t T) (inject_Z CACHE_EXPIRY) = true.
Proof.
  intros H. apply Qgtb_true.
  apply Qlt_le_trans with (inject_Z (CACHE_EXPIRY + 1)).
  - rewrite <- Zlt_Qlt. lia.
  - apply float_sub_ge; [vm_compute; discriminate|].
    rewrite inject_Z_plus. change (inject_Z 1) with 1%Q. lra.
Qed.

(** *** [get_from_cache], case by case *)

Lemma get_from_cache_unsearchable k w :
  cache_dir_searchable w = false ->
  get_from_cache E k w =
    (Raise (permission_denied (cache_path (k +:+ ".pkl"))), add_call (CallGet k) w).
Proof.
  intros H. unfold get_from_cache. unfold_py. cbn. rewrite H. reflexivity.
Qed.

Lemma get_from_cache_missing k w :
  cache_dir_searchable w = true ->
  cache_dir w !! (k +:+ ".pkl") = None ->
  get_from_cache E k w = (Ok None, add_call (CallGet k) w).
Proof.
  intros Hs H. unfold get_from_cache. unfold_py. wsimpl. rewrite Hs, H. reflexivity.
Qed.

Lemma get_from_cache_found k w f :
  cache_dir w !! (k +:+ ".pkl") = Some f ->
  get_from_cache E k w =
    try_except (load_entry E k (k +:+ ".pkl"))
      (fun e => logger ERROR ("Error reading cache: " +:+ str E e) ;; ret None)
      (add_call (CallGet k) w).
Proof.
  intros H. pose proof (searchable_of_lookup _ _ _ H) as Hs.
  unfold get_from_cache. unfold_py. wsimpl. rewrite Hs, H. reflexivity.
Qed.

Lemma load_entry_unreadable k name w f :
  cache_dir w !! name = Some f -> readable f = false ->
  load_entry E k name w = (Raise (permission_denied (cache_path name)), w).
Proof.
  intros H Hr. unfold load_entry. unfold_py. rewrite H, Hr. reflexivity.
Qed.

Lemma load_entry_corrupt k name w f e :
  cache_dir w !! name = Some f -> readable f = true -> data f = Corrupt e ->
  load_entry E k name w = (Raise e, w).
Proof.
  intros H Hr Hd. unfold load_entry. unfold_py. rewrite H, Hr, Hd. reflexivity.
Qed.

Lemma load_entry_fresh k name w f T v :
  cache_dir w !! name = Some f -> readable f = true -> data f = Pickled T v ->
  Qgtb (float_sub E (now w) T) (inject_Z CACHE_EXPIRY) = false ->
  load_entry E k name w =
    (Ok (Some v), add_log (INFO, "Cache hit: Using cached result for hash " +:+ k) w).
Proof.
  intros H Hr Hd Hq. unfold load_entry. unfold_py. rewrite H, Hr, Hd. cbn.
  rewrite Hq. reflexivity.
Qed.

Lemma load_entry_expired k name w f T v :
  cache_dir w !! name = Some f -> readable f = true -> data f = Pickled T v ->
  Qgtb (float_sub E (now w) T) (inject_Z CACHE_EXPIRY) = true ->
  load_entry E k name w =
    let w1 := add_log (INFO, "Cache expired for hash " +:+ k) w in
    if cache_dir_writable w
    then (Ok None, set_cache_dir (delete name (cache_dir w)) w1)
    else (Raise (permission_denied (cache_path name)), w1).
Proof.
  intros H Hr Hd Hq. unfold load_entry. unfold_py. rewrite H, Hr, Hd. cbn.
  rewrite Hq. wsimpl. rewrite H. destruct (cache_dir_writable w); reflexivity.
Qed.

(** *** [save_to_cache], case by case *)

Lemma dump_entry_written k name v w :
  can_write name w = true ->
  picklable E v = true ->
  dump_entry E k name v w =
    (Ok tt,
     add_log (INFO, "Saved result to cache for hash " +:+ k)
       (set_cache_dir
          (<[name := mkFile (Pickled (now w) v) (can_read_back name w) true]>
             (cache_dir w)) w)).
Proof.
  intros Hw Hv. pose proof (can_write_searchable _ _ Hw) as Hs. revert Hw.
  unfold can_write, can_read_back, dump_entry. unfold_py.
  destruct (cache_dir w !! name) as [f|] eqn:H; rewrite ?Hs; intros Hw; rewrite Hw; cbn;
    rewrite !cache_dir_set_cache_dir by exact Hs;
    rewrite lookup_insert_eq, Hv; cbn;
    rewrite ?cache_dir_set_cache_dir by exact Hs;
    rewrite insert_insert_eq; reflexivity.
Qed.

(** The value cannot be pickled: the file was opened, and is left
    without a pickle that loads. *)
Lemma dump_entry_unpicklable k name v w :
  can_write name w = true ->
  picklable E v = false ->
  dump_entry E k name v w =
    (Raise too_deep_to_pickle,
     set_cache_dir
       (<[name := mkFile (Corrupt (dump_leftover E v)) (can_read_back name w) true]>
          (cache_dir w)) w).
Proof.
  intros Hw Hv. pose proof (can_write_searchable _ _ Hw) as Hs. revert Hw.
  unfold can_write, can_read_back, dump_entry. unfold_py.
  destruct (cache_dir w !! name) as [f|] eqn:H; rewrite ?Hs; intros Hw; rewrite Hw; cbn;
    rewrite !cache_dir_set_cache_dir by exact Hs;
    rewrite lookup_insert_eq, Hv; cbn;
    rewrite ?cache_dir_set_cache_dir by exact Hs;
    rewrite insert_insert_eq; reflexivity.
Qed.

Lemma dump_entry_refused k name v w :
  can_write name w = false ->
  dump_entry E k name v w = (Raise (permission_denied (cache_path name)), w).
Proof.
  unfold can_write, dump_entry. unfold_py.
  destruct (cache_dir w !! name) as [f|] eqn:H; intros Hw; rewrite Hw; reflexivity.
Qed.

Lemma save_to_cache_written k v w :
  can_write (k +:+ ".pkl") w = true ->
  picklable E v = true ->
  save_to_cache E k v w =
    (Ok tt,
     add_log (INFO, "Saved result to cache for hash " +:+ k)
       (set_cache_dir
          (<[k +:+ ".pkl" :=
               mkFile (Pickled (now w) v) (can_read_back (k +:+ ".pkl") w) true]>
             (cache_dir w))
          (add_call (CallSave k v) w))).
Proof.
  intros Hw Hv. unfold save_to_cache, try_except, bind, trace.
  rewrite dump_entry_written by assumption. reflexivity.
Qed.

Lemma save_to_cache_unpicklable k v w :
  can_write (k +:+ ".pkl") w = true ->
  picklable E v = false ->
  save_to_cache E k v w =
    (Ok tt,
     add_log (ERROR, "Error saving to cache: " +:+ str E too_deep_to_pickle)
       (set_cache_dir
          (<[k +:+ ".pkl" :=
               mkFile (Corrupt (dump_leftover E v)) (can_read_back (k +:+ ".pkl") w) true]>
             (cache_dir w))
          (add_call (CallSave k v) w))).
Proof.
  intros Hw Hv. unfold save_to_cache, try_except, bind, trace.
  rewrite dump_entry_unpicklable by assumption. reflexivity.
Qed.

Lemma save_to_cache_refused k v w :
  can_write (k +:+ ".pkl") w = false ->
  save_to_cache E k v w =
    (Ok tt,
     add_log (ERROR, "Error saving to cache: "
                     +:+ str E (permission_denied (cache_path (k +:+ ".pkl"))))
       (add_call (CallSave k v) w)).
Proof.
  intros Hw. unfold save_to_cache, try_except, bind, trace.
  rewrite dump_entry_refused by exact Hw. reflexivity.
Qed.

(** What a store does to the files that can be reached. *)
Lemma save_to_cache_cache_dir k v w :
  cache_dir (snd (save_to_cache E k v w)) =
    if can_write (k +:+ ".pkl") w then
      <[k +:+ ".pkl" :=
          mkFile (if picklable E v then Pickled (now w) v
                  else Corrupt (dump_leftover E v))
                 (can_read_back (k +:+ ".pkl") w) true]>
        (cache_dir w)
    else cache_dir w.
Proof.
  destruct (can_write (k +:+ ".pkl") w) eqn:Hw.
  - pose proof (can_write_searchable _ _ Hw) as Hs.
    destruct (picklable E v) eqn:Hv.
    + rewrite save_to_cache_written by assumption. wsimpl.
      apply cache_dir_set_cache_dir. exact Hs.
    + rewrite save_to_cache_unpicklable by assumption. wsimpl.
      apply cache_dir_set_cache_dir. exact Hs.
  - rewrite save_to_cache_refused by exact Hw. reflexivity.
Qed.

Lemma save_to_cache_never_raises k v w : fst (save_to_cache E k v w) = Ok tt.
Proof.
  destruct (can_write (k +:+ ".pkl") w) eqn:Hw.
  - destruct (picklable E v) eqn:Hv.
    + rewrite save_to_cache_written by assumption. reflexivity.
    + rewrite save_to_cache_unpicklable by assumption. reflexivity.
  - rewrite save_to_cache_refused by exact Hw. reflexivity.
Qed.

(** What a store returns and what it changes. *)
Lemma save_to_cache_spec k v w :
  let w' := snd (save_to_cache E k v w) in
  fst (save_to_cache E k v w) = Ok tt /\
  now w' = now w /\ tmp_dir w' = tmp_dir w /\ api_requests w' = api_requests w /\
  calls w' = (calls w ++ [CallSave k v])%list /\
  cache_dir_searchable w' = cache_dir_searchable w /\
  cache_dir w' =
    if can_write (k +:+ ".pkl") w then
      <[k +:+ ".pkl" :=
          mkFile (if picklable E v then Pickled (now w) v
                  else Corrupt (dump_leftover E v))
                 (can_read_back (k +:+ ".pkl") w) true]>
        (cache_dir w)
    else cache_dir w.
Proof.
  cbn zeta. split; [apply save_to_cache_never_raises|].
  rewrite save_to_cache_cache_dir.
  destruct (can_write (k +:+ ".pkl") w) eqn:Hw.
  - destruct (picklable E v) eqn:Hv.
    + rewrite save_to_cache_written by assumption. cbn. tauto.
    + rewrite save_to_cache_unpicklable by assumption. cbn. tauto.
  - rewrite save_to_cache_refused by exact Hw. cbn. tauto.
Qed.

(** A lookup in a directory that can be searched returns. *)
Lemma get_from_cache_returns k w :
  cache_dir_searchable w = true -> exists r, fst (get_from_cache E k w) = Ok r.
Proof.
  intros Hs. destruct (cache_dir w !! (k +:+ ".pkl")) as [f|] eqn:H.
  - rewrite (get_from_cache_found _ _ _ H). unfold try_except.
    destruct (load_entry E k (k +:+ ".pkl") (add_call (CallGet k) w)) as [[r|e'] w'].
    + exists r. reflexivity.
    + exists None. reflexivity.
  - exists None. rewrite get_from_cache_missing by assumption. reflexivity.
Qed.

(** C1, as amended.  When the record can be written (it exists and is
    writable, or it is missing and the directory allows its creation),
    can be read back, and [pickle.dump] serialises [v], [save_to_cache k
    v] followed by [get_from_cache k] at any time [t] at which the seven
    days have not elapsed returns [v]. *)
Theorem cache_round_trip (k : string) (v : json) (w : world) (t : Q) :
  can_write (k +:+ ".pkl") w = true ->
  can_read_back (k +:+ ".pkl") w = true ->
  picklable E v = true ->
  (t - now w <= inject_Z CACHE_EXPIRY)%Q ->
  fst (get_from_cache E k (set_now t (snd (save_to_cache E k v w)))) = Ok (Some v).
Proof.
  intros Hw Hr Hv Ht. pose proof (can_write_searchable _ _ Hw) as Hs.
  rewrite save_to_cache_written by assumption. cbn [snd].
  erewrite get_from_cache_found
    by (wsimpl; rewrite cache_dir_set_cache_dir by exact Hs; apply lookup_insert_eq).
  unfold try_except.
  erewrite load_entry_fresh.
  - reflexivity.
  - wsimpl. rewrite cache_dir_set_cache_dir by exact Hs. apply lookup_insert_eq.
  - exact Hr.
  - reflexivity.
  - cbn. apply fresh_of_age. exact Ht.
Qed.

(** C2, as amended.  Take a record that can be reached in [cv_cache/],
    stored at [T].  A lookup at which the age the code computes, the
    float [time.time() - T], exceeds [CACHE_EXPIRY] returns [None]; the
    computed age does exceed it once seven days and a second have
    passed.  The record is removed when it can be read and the directory
    allows the removal, and stays in place otherwise. *)
Theorem expired_entry_is_absent (k : string) (w : world) (f : cache_record) (T : Q) (v : json) :
  cache_dir w !! (k +:+ ".pkl") = Some f ->
  data f = Pickled T v ->
  (inject_Z CACHE_EXPIRY < float_sub E (now w) T)%Q \/
  (T + inject_Z CACHE_EXPIRY + 1 <= now w)%Q ->
  fst (get_from_cache E k w) = Ok None /\
  cache_dir (snd (get_from_cache E k w)) =
    if readable f && cache_dir_writable w
    then delete (k +:+ ".pkl") (cache_dir w)
    else cache_dir w.
Proof.
  intros H Hd Ht. pose proof (searchable_of_lookup _ _ _ H) as Hs.
  assert (Hq : Qgtb (float_sub E (now w) T) (inject_Z CACHE_EXPIRY) = true).
  { destruct Ht as [Ht | Ht]; [apply Qgtb_true, Ht | apply expired_of_age, Ht]. }
  rewrite (get_from_cache_found _ _ _ H). unfold try_except.
  destruct (readable f) eqn:Hr.
  - erewrite load_entry_expired by (try exact Hd; try exact Hr; try exact Hq; wsimpl; eassumption).
    wsimpl. destruct (cache_dir_writable w); wsimpl; split; try reflexivity.
    apply cache_dir_set_cache_dir. exact Hs.
  - erewrite load_entry_unreadable by (try exact Hr; wsimpl; eassumption).
    wsimpl. split; reflexivity.
Qed.

(** C3, where the code departs from it.  [save_to_cache] never raises,
    and [get_from_cache] returns (a value or [None]) whenever [cv_cache/]
    can be searched: the errors of its guarded block are misses.  But
    the test [cache_file.exists()] stands before the guarded block: when
    the directory may not be searched its [PermissionError] leaves
    [get_from_cache], nothing is logged, and the handler that called it
    answers with an error body instead of processing the upload.  And a
    store that fails is not always without effect: when the file was
    opened and the value then cannot be pickled, the record is left
    without a pickle that loads, whatever it held. *)
Theorem lookup_error_escapes (k : string) (v : json) (w : world) :
  (cache_dir_searchable w = false ->
   get_from_cache E k w =
     (Raise (permission_denied (cache_path (k +:+ ".pkl"))), add_call (CallGet k) w)) /\
  (cache_dir_searchable w = true -> exists r, fst (get_from_cache E k w) = Ok r) /\
  fst (save_to_cache E k v w) = Ok tt /\
  (can_write (k +:+ ".pkl") w = true -> picklable E v = false ->
   cache_dir (snd (save_to_cache E k v w)) =
     <[k +:+ ".pkl" :=
         mkFile (Corrupt (dump_leftover E v)) (can_read_back (k +:+ ".pkl") w) true]>
       (cache_dir w)).
Proof.
  split; [|split; [|split]].
  - apply get_from_cache_unsearchable.
  - apply get_from_cache_returns.
  - apply save_to_cache_never_raises.
  - intros Hw Hv. rewrite save_to_cache_cache_dir, Hw, Hv. reflexivity.
Qed.

End Cache.

(** The round trip on an empty, writable cache, one second after the
    store. *)
Lemma cache_round_trip_witness :
  fst (get_from_cache cache_externals "abc"
         (set_now 1001 (snd (save_to_cache cache_externals "abc" john_doe fresh_world))))
  = Ok (Some john_doe).
Proof.
  apply (cache_round_trip cache_externals "abc" john_doe fresh_world 1001).
  - reflexivity.
  - reflexivity.
  - reflexivity.
  - vm_compute. discriminate.
Defined.

(** C1 as stated fails: in a cache directory that refuses the creation
    of the record the store is swallowed, and the lookup that follows it
    finds nothing. *)
Lemma cache_round_trip_read_only :
  fst (get_from_cache cache_externals "abc"
         (set_now 1001 (snd (save_to_cache cache_externals "abc" john_doe read_only_world))))
  <> Ok (Some john_doe).
Proof. vm_compute. discriminate. Qed.

(** It fails as well for a value that pickle cannot follow to its
    bottom: the store is swallowed after the file was opened, and the
    lookup finds an empty record. *)
Lemma cache_round_trip_too_deep :
  picklable cache_externals (nested 600) = false /\
  fst (get_from_cache cache_externals "abc"
         (set_now 1001 (snd (save_to_cache cache_externals "abc" (nested 600) fresh_world))))
  = Ok None /\
  cache_dir (snd (save_to_cache cache_externals "abc" (nested 600) fresh_world)) !! "abc.pkl"
  = Some (mkFile (Corrupt ran_out_of_input) true true).
Proof. vm_compute. repeat split; reflexivity. Qed.

(** An expired record in a directory that allows removal: the lookup
    returns [None] and the record is gone. *)
Lemma expired_entry_is_absent_witness :
  fst (get_from_cache cache_externals "abc" stale_world) = Ok None /\
  cache_dir (snd (get_from_cache cache_externals "abc" stale_world)) =
    delete "abc.pkl" (cache_dir stale_world).
Proof.
  apply (expired_entry_is_absent cache_externals "abc" stale_world
           (mkFile (Pickled 1000 john_doe) true true) 1000 john_doe).
  - reflexivity.
  - reflexivity.
  - right. vm_compute. discriminate.
Defined.

(** C2 as stated fails: when the directory refuses the removal the
    lookup still returns [None], but the expired record stays. *)
Lemma expired_entry_kept_read_only :
  ~ (fst (get_from_cache cache_externals "abc" stale_read_only_world) = Ok None /\
     cache_dir (snd (get_from_cache cache_externals "abc" stale_read_only_world))
       !! "abc.pkl" = None).
Proof. vm_compute. intros [_ H]. discriminate H. Qed.

(** A cache directory that may not be searched: the lookup raises. *)
Lemma lookup_error_escapes_witness :
  get_from_cache cache_externals "abc" unsearchable_world =
    (Raise (PyError "PermissionError" "[Errno 13] Permission denied: 'cv_cache/abc.pkl'"),
     add_call (CallGet "abc") unsearchable_world).
Proof.
  apply (proj1 (lookup_error_escapes cache_externals "abc" john_doe unsearchable_world)).
  reflexivity.
Defined.

(** ** Text extraction *)

Lemma extract_pages_pure page_count pages i text w :
  extract_pages page_count pages i text w = (pages_text pages text, w).
Proof.
  revert i text. induction pages as [|page rest IH]; intros i text.
  - reflexivity.
  - cbn [extract_pages pages_text]. unfold_py. cbn [enabled].
    destruct page as [page_text|e]; [apply IH | reflexivity].
Qed.

(** Each page adds its text and one line break. *)
Lemma pages_text_length pages text text' :
  pages_text pages text = Ok text' ->
  (String.length text + length pages <= String.length text')%nat.
Proof.
  revert text. induction pages as [|page rest IH]; intros text H.
  - cbn in H. injection H as <-. cbn. lia.
  - destruct page as [page_text|e]; cbn in H; [|discriminate].
    apply IH in H. rewrite !length_append in H. cbn in *. lia.
Qed.

Lemma concat_cons sep (x y : string) (l : list string) :
  String.concat sep (x :: y :: l) = x +:+ sep +:+ String.concat sep (y :: l).
Proof. reflexivity. Qed.

Lemma concat_empty_cons (x : string) (l : list string) :
  String.concat "" (x :: l) = x +:+ String.concat "" l.
Proof.
  destruct l as [|y l].
  - cbn. now rewrite append_nil_r.
  - rewrite concat_cons, append_nil_l. reflexivity.
Qed.

Lemma pages_text_terminated ts text :
  pages_text (map Ok ts) text
  = Ok (text +:+ String.concat "" (map (fun t => t +:+ LF) ts)).
Proof.
  revert text. induction ts as [|t rest IH]; intros text.
  - cbn. now rewrite append_nil_r.
  - cbn [map pages_text]. rewrite IH, concat_empty_cons, append_assoc.
    reflexivity.
Qed.

Lemma terminated_is_joined ts :
  ts <> [] ->
  String.concat "" (map (fun t => t +:+ LF) ts) = join_lines ts +:+ LF.
Proof.
  unfold join_lines.
  induction ts as [|t rest IH]; intros Hne; [congruence|].
  cbn [map]. rewrite concat_empty_cons.
  destruct rest as [|t' rest'].
  - cbn. now rewrite append_nil_r.
  - rewrite IH by discriminate. rewrite concat_cons, !append_assoc.
    reflexivity.
Qed.

Section Extraction.

Variable E : externals.

Lemma extract_text_from_pdf_ok file_path w bytes pages text :
  tmp_dir w !! file_path = Some bytes ->
  PdfReader E bytes = Ok pages ->
  pages_text pages "" = Ok text ->
  extract_text_from_pdf E file_path w =
    (Ok text,
     add_log (INFO, "Text extraction complete. Extracted "
                    +:+ pretty (String.length text) +:+ " characters")
       (add_log (INFO, "PDF has " +:+ pretty (length pages) +:+ " pages")
          (add_log (INFO, "Starting text extraction from PDF: " +:+ file_path)
             (add_call (CallExtract file_path) w)))).
Proof.
  intros Hf Hp Ht. unfold extract_text_from_pdf. unfold_py. cbn.
  rewrite Hf, Hp. cbn. rewrite extract_pages_pure, Ht. reflexivity.
Qed.

Lemma extract_text_from_pdf_unparseable file_path w bytes e :
  tmp_dir w !! file_path = Some bytes ->
  PdfReader E bytes = Raise e ->
  extract_text_from_pdf E file_path w =
    (Raise (PyError "Exception" ("Failed to extract text from PDF: " +:+ str E e)),
     add_log (ERROR, "Failed to extract text from PDF: " +:+ str E e)
       (add_log (INFO, "Starting text extraction from PDF: " +:+ file_path)
          (add_call (CallExtract file_path) w))).
Proof.
  intros Hf Hp. unfold extract_text_from_pdf. unfold_py. cbn.
  rewrite Hf, Hp. reflexivity.
Qed.

Lemma extract_text_from_pdf_bad_page file_path w bytes pages e :
  tmp_dir w !! file_path = Some bytes ->
  PdfReader E bytes = Ok pages ->
  pages_text pages "" = Raise e ->
  extract_text_from_pdf E file_path w =
    (Raise (PyError "Exception" ("Failed to extract text from PDF: " +:+ str E e)),
     add_log (ERROR, "Failed to extract text from PDF: " +:+ str E e)
       (add_log (INFO, "PDF has " +:+ pretty (length pages) +:+ " pages")
          (add_log (INFO, "Starting text extraction from PDF: " +:+ file_path)
             (add_call (CallExtract file_path) w)))).
Proof.
  intros Hf Hp Ht. unfold extract_text_from_pdf. unfold_py. cbn.
  rewrite Hf, Hp. cbn. rewrite extract_pages_pure, Ht. reflexivity.
Qed.

(** A text is returned exactly when the file parses and the loop over
    its pages runs to its end. *)
Lemma extract_text_from_pdf_returns file_path w bytes text :
  tmp_dir w !! file_path = Some bytes ->
  fst (extract_text_from_pdf E file_path w) = Ok text <->
  exists pages, PdfReader E bytes = Ok pages /\ pages_text pages "" = Ok text.
Proof.
  intros Hf. split.
  - intros Hx. destruct (PdfReader E bytes) as [pages|e] eqn:Hp.
    + destruct (pages_text pages "") as [text'|e] eqn:Ht.
      * erewrite extract_text_from_pdf_ok in Hx by eassumption.
        cbn in Hx. injection Hx as <-. exists pages. split; [reflexivity | exact Ht].
      * erewrite extract_text_from_pdf_bad_page in Hx by eassumption. discriminate.
    + erewrite extract_text_from_pdf_unparseable in Hx by eassumption. discriminate.
  - intros (pages & Hp & Ht).
    erewrite extract_text_from_pdf_ok by eassumption. reflexivity.
Qed.

(** C8, as amended.  For a parseable PDF whose pages yield the texts
    [ts], [extract_text_from_pdf] returns the texts in page order, each
    followed by a line break: with at least one page that is the texts
    joined with a line break and one more line break after the last. *)
Theorem extraction_output_shape (file_path : string) (w : world)
    (bytes : list Byte.byte) (ts : list string) :
  tmp_dir w !! file_path = Some bytes ->
  PdfReader E bytes = Ok (map Ok ts) ->
  fst (extract_text_from_pdf E file_path w)
    = Ok (String.concat "" (map (fun t => t +:+ LF) ts)) /\
  (ts <> [] ->
   fst (extract_text_from_pdf E file_path w) = Ok (join_lines ts +:+ LF)).
Proof.
  intros Hf Hp.
  assert (H : fst (extract_text_from_pdf E file_path w)
              = Ok (String.concat "" (map (fun t => t +:+ LF) ts))).
  { erewrite extract_text_from_pdf_ok; [reflexivity | exact Hf | exact Hp |].
    apply (pages_text_terminated ts ""). }
  split; [exact H|].
  intros Hne. rewrite H, terminated_is_joined by exact Hne. reflexivity.
Qed.

End Extraction.

(** Two pages: [Alice], line break, [Bob], line break. *)
Lemma extraction_output_shape_witness :
  fst (extract_text_from_pdf two_page_externals "tmp0.pdf" tmp_world)
    = Ok (String.concat "" (map (fun t => t +:+ LF) ["Alice"; "Bob"])) /\
  (["Alice"; "Bob"] <> [] ->
   fst (extract_text_from_pdf two_page_externals "tmp0.pdf" tmp_world)
     = Ok (join_lines ["Alice"; "Bob"] +:+ LF)).
Proof.
  apply (extraction_output_shape two_page_externals "tmp0.pdf" tmp_world
           sample_bytes ["Alice"; "Bob"]).
  - reflexivity.
  - reflexivity.
Defined.

(** C8 as stated fails: the result is not the page texts joined with a
    line break, it carries one more line break at its end. *)
Lemma extraction_is_not_a_join :
  fst (extract_text_from_pdf two_page_externals "tmp0.pdf" tmp_world)
  <> Ok (join_lines ["Alice"; "Bob"]).
Proof. vm_compute. intros H. discriminate H. Qed.

(** ** What the helpers leave untouched *)

Section Frames.

Variable E : externals.

(** The log and the recorded calls do not influence a lookup. *)
Lemma get_from_cache_result (k : string) (w : world) :
  fst (get_from_cache E k w) =
    match cache_dir w !! (k +:+ ".pkl") with
    | Some f =>
        if readable f then
          match data f with
          | Pickled T v =>
              if Qgtb (float_sub E (now w) T) (inject_Z CACHE_EXPIRY)
              then Ok None else Ok (Some v)
          | Corrupt _ => Ok None
          end
        else Ok None
    | None =>
        if cache_dir_searchable w then Ok None
        else Raise (permission_denied (cache_path (k +:+ ".pkl")))
    end.
Proof.
  destruct (cache_dir w !! (k +:+ ".pkl")) as [f|] eqn:H.
  - rewrite (get_from_cache_found _ _ _ _ H). unfold try_except.
    destruct (readable f) eqn:Hr.
    + destruct (data f) as [T v|e] eqn:Hd.
      * destruct (Qgtb (float_sub E (now w) T) (inject_Z CACHE_EXPIRY)) eqn:Hq.
        -- erewrite load_entry_expired by (try exact Hd; try exact Hr; try exact Hq; wsimpl; eassumption).
           cbn. destruct (cache_dir_writable w); reflexivity.
        -- erewrite load_entry_fresh by (try exact Hd; try exact Hr; try exact Hq; wsimpl; eassumption).
           reflexivity.
      * erewrite load_entry_corrupt by (try exact Hd; try exact Hr; wsimpl; eassumption).
        reflexivity.
    + erewrite load_entry_unreadable by (try exact Hr; wsimpl; eassumption).
      reflexivity.
  - destruct (cache_dir_searchable w) eqn:Hs.
    + rewrite get_from_cache_missing by assumption. reflexivity.
    + rewrite get_from_cache_unsearchable by assumption. reflexivity.
Qed.

Lemma get_from_cache_frame (k : string) (w : world) :
  let w' := snd (get_from_cache E k w) in
  now w' = now w /\ cache_dir_writable w' = cache_dir_writable w /\
  tmp_dir w' = tmp_dir w /\ api_requests w' = api_requests w /\
  calls w' = (calls w ++ [CallGet k])%list /\
  (cache_dir w' = cache_dir w \/ cache_dir w' = delete (k +:+ ".pkl") (cache_dir w)) /\
  cache_dir_searchable w' = cache_dir_searchable w.
Proof.
  destruct (cache_dir w !! (k +:+ ".pkl")) as [f|] eqn:H.
  - pose proof (searchable_of_lookup _ _ _ H) as Hs.
    rewrite (get_from_cache_found _ _ _ _ H). unfold try_except.
    destruct (readable f) eqn:Hr.
    + destruct (data f) as [T v|e] eqn:Hd.
      * destruct (Qgtb (float_sub E (now w) T) (inject_Z CACHE_EXPIRY)) eqn:Hq.
        -- erewrite load_entry_expired by (try exact Hd; try exact Hr; try exact Hq; wsimpl; eassumption).
           cbn. destruct (cache_dir_writable w) eqn:Hw; wsimpl;
             rewrite ?Hw, ?cache_dir_set_cache_dir by exact Hs; tauto.
        -- erewrite load_entry_fresh by (try exact Hd; try exact Hr; try exact Hq; wsimpl; eassumption).
           wsimpl. tauto.
      * erewrite load_entry_corrupt by (try exact Hd; try exact Hr; wsimpl; eassumption).
        wsimpl. tauto.
    + erewrite load_entry_unreadable by (try exact Hr; wsimpl; eassumption).
      wsimpl. tauto.
  - destruct (cache_dir_searchable w) eqn:Hs.
    + rewrite get_from_cache_missing by assumption. wsimpl. tauto.
    + rewrite get_from_cache_unsearchable by assumption. wsimpl. tauto.
Qed.

Lemma cache_miss_add_log (k : string) (r : level * string) (w : world) :
  cache_miss E k (add_log r w) = cache_miss E k w.
Proof. unfold cache_miss. rewrite !get_from_cache_result. reflexivity. Qed.

(** What [generate_json_from_text] returns and what it changes: one more
    request sent, one more call recorded, some log records. *)
Lemma generate_json_from_text_spec (cv_text : string) (w : world) :
  let w' := snd (generate_json_from_text E cv_text w) in
  fst (generate_json_from_text E cv_text w) =
    match structuring_outcome E (api_requests w) cv_text with
    | Ok json_data => Ok json_data
    | Raise e => Raise (PyError "Exception" ("OpenAI API error: " +:+ str E e))
    end /\
  now w' = now w /\ cache_dir w' = cache_dir w /\
  cache_dir_writable w' = cache_dir_writable w /\ tmp_dir w' = tmp_dir w /\
  api_requests w' = S (api_requests w) /\
  calls w' = (calls w ++ [CallGenerate cv_text])%list /\
  cache_dir_searchable w' = cache_dir_searchable w.
Proof.
  unfold generate_json_from_text, chat_completions_create, structuring_outcome.
  unfold_py. cbn.
  destruct (chat_completion E (api_requests w) _) as [content|e]; wsimpl;
    [|tauto].
  destruct (json_loads E content) as [json_data|e]; wsimpl; [|tauto].
  destruct (py_len json_data) as [n|e]; wsimpl; tauto.
Qed.

End Frames.

(** ** The upload handler *)

Local Arguments get_from_cache : simpl never.
Local Arguments save_to_cache : simpl never.
Local Arguments extract_text_from_pdf : simpl never.
Local Arguments generate_json_from_text : simpl never.
Local Arguments process_upload : simpl never.
Local Arguments upload_cv_body : simpl never.

Section Upload.

Variable E : externals.

Lemma mkstemp_unused (w : world) : tmp_dir w !! mkstemp E (dom (tmp_dir w)) = None.
Proof. apply not_elem_of_dom, mkstemp_fresh. Qed.

(** Extraction fails: the exception leaves [process_upload] before the
    clean-up statement, and the temporary file stays. *)
Lemma process_upload_extraction_fails content h w e :
  PdfReader E content = Raise e \/
  (exists pages, PdfReader E content = Ok pages /\ pages_text pages "" = Raise e) ->
  let temp_file_path := mkstemp E (dom (tmp_dir w)) in
  let w' := snd (process_upload E content h w) in
  fst (process_upload E content h w)
    = Raise (PyError "Exception" ("Failed to extract text from PDF: " +:+ str E e)) /\
  tmp_dir w' = <[temp_file_path := content]> (tmp_dir w) /\
  cache_dir w' = cache_dir w /\
  api_requests w' = api_requests w /\
  calls w' = (calls w ++ [CallExtract temp_file_path])%list.
Proof.
  intros Hfail. unfold process_upload, NamedTemporaryFile. unfold_py. wsimpl.
  destruct Hfail as [Hp | (pages & Hp & Ht)].
  - erewrite extract_text_from_pdf_unparseable
      by (try exact Hp; wsimpl; apply lookup_insert_eq).
    wsimpl. tauto.
  - erewrite extract_text_from_pdf_bad_page
      by (try exact Hp; try exact Ht; wsimpl; apply lookup_insert_eq).
    wsimpl. tauto.
Qed.

(** Extraction returns the empty string: the temporary file is removed,
    the handler raises its own 400 and neither the completion service nor
    the cache is touched. *)
Lemma process_upload_empty_text content h w pages :
  PdfReader E content = Ok pages ->
  pages_text pages "" = Ok "" ->
  let w' := snd (process_upload E content h w) in
  fst (process_upload E content h w)
    = Raise (HTTPException 400 "Could not extract text from the PDF") /\
  tmp_dir w' = tmp_dir w /\
  cache_dir w' = cache_dir w /\
  api_requests w' = api_requests w /\
  calls w' = (calls w ++ [CallExtract (mkstemp E (dom (tmp_dir w)))])%list.
Proof.
  intros Hp Ht. unfold process_upload, NamedTemporaryFile. unfold_py. wsimpl.
  erewrite extract_text_from_pdf_ok
    by (try exact Hp; try exact Ht; wsimpl; apply lookup_insert_eq).
  wsimpl. rewrite lookup_insert_eq. wsimpl.
  rewrite delete_insert_id by apply mkstemp_unused. tauto.
Qed.

(** Extraction returns some text: the temporary file is removed, the
    text goes to the completion service, and a parsed answer is stored
    when the record can be written and the answer pickled; when only the
    pickling fails the record is left without a pickle that loads. *)
Lemma process_upload_text content h w pages cv_text :
  PdfReader E content = Ok pages ->
  pages_text pages "" = Ok cv_text ->
  cv_text <> "" ->
  let temp_file_path := mkstemp E (dom (tmp_dir w)) in
  let w' := snd (process_upload E content h w) in
  tmp_dir w' = tmp_dir w /\
  api_requests w' = S (api_requests w) /\
  match structuring_outcome E (api_requests w) cv_text with
  | Ok json_data =>
      fst (process_upload E content h w) = Ok json_data /\
      calls w' = (calls w ++ [CallExtract temp_file_path; CallGenerate cv_text;
                              CallSave h json_data])%list /\
      cache_dir w' =
        if can_write (h +:+ ".pkl") w
        then <[h +:+ ".pkl" :=
                 mkFile (if picklable E json_data then Pickled (now w) json_data
                         else Corrupt (dump_leftover E json_data))
                        (can_read_back (h +:+ ".pkl") w) true]>
               (cache_dir w)
        else cache_dir w
  | Raise e =>
      fst (process_upload E content h w)
        = Raise (PyError "Exception" ("OpenAI API error: " +:+ str E e)) /\
      calls w' = (calls w ++ [CallExtract temp_file_path; CallGenerate cv_text])%list /\
      cache_dir w' = cache_dir w
  end.
Proof.
  intros Hp Ht Hne. unfold process_upload, NamedTemporaryFile. unfold_py. wsimpl.
  erewrite extract_text_from_pdf_ok
    by (try exact Hp; try exact Ht; wsimpl; apply lookup_insert_eq).
  wsimpl. rewrite lookup_insert_eq. wsimpl.
  rewrite delete_insert_id by apply mkstemp_unused.
  assert (Hb : String.eqb cv_text "" = false) by (apply String.eqb_neq; exact Hne).
  rewrite Hb. wsimpl.
  match goal with
  | |- context [generate_json_from_text E cv_text ?w3] =>
      pose proof (generate_json_from_text_spec E cv_text w3) as Hg;
      destruct (generate_json_from_text E cv_text w3) as [r w4]
  end.
  wsimpl in Hg. autorewrite with world in Hg.
  destruct Hg as (Hr & Hnow & Hc & Hcw & Htmp & Hapi & Hcalls & Hsearch).
  destruct (structuring_outcome E (api_requests w) cv_text) as [json_data|e];
    rewrite Hr; wsimpl; [|rewrite Htmp, Hapi, Hcalls, Hc, <- app_assoc; tauto].
  assert (Hsame : can_write (h +:+ ".pkl")
                    (add_log (INFO, "Successfully generated JSON from CV") w4)
                  = can_write (h +:+ ".pkl") w).
  { unfold can_write. wsimpl. rewrite Hc, Hcw, Hsearch. reflexivity. }
  assert (Hread : can_read_back (h +:+ ".pkl")
                    (add_log (INFO, "Successfully generated JSON from CV") w4)
                  = can_read_back (h +:+ ".pkl") w).
  { unfold can_read_back. wsimpl. rewrite Hc. reflexivity. }
  match goal with
  | |- context [save_to_cache E h json_data ?w5] =>
      pose proof (save_to_cache_spec E h json_data w5) as Hsv;
      destruct (save_to_cache E h json_data w5) as [r5 w6]
  end.
  cbn zeta in Hsv. rewrite Hsame, Hread in Hsv. wsimpl in Hsv.
  autorewrite with world in Hsv.
  destruct Hsv as (-> & Hnow6 & Htmp6 & Hapi6 & Hcalls6 & _ & Hc6).
  wsimpl. rewrite Htmp6, Hapi6, Hcalls6, Hc6, Htmp, Hapi, Hcalls, Hc, Hnow, <- !app_assoc.
  tauto.
Qed.

Lemma get_from_cache_fst_add_log (k : string) (r : level * string) (w : world) :
  fst (get_from_cache E k (add_log r w)) = fst (get_from_cache E k w).
Proof. rewrite !get_from_cache_result. reflexivity. Qed.

Lemma upload_cv_rejected (file : UploadFile) (w : world) :
  endswith (lower (filename file)) ".pdf" = false ->
  upload_cv E file w =
    (Raise (HTTPException 400 "Only PDF files are accepted"),
     add_log (WARNING, "Rejected non-PDF file: " +:+ filename file)
       (add_log (INFO, "Received file upload: " +:+ filename file) w)).
Proof.
  intros Hpdf. unfold upload_cv. unfold_py. wsimpl. rewrite Hpdf. reflexivity.
Qed.

Lemma upload_cv_accepted (file : UploadFile) (w : world) :
  endswith (lower (filename file)) ".pdf" = true ->
  upload_cv E file w =
    try_except (upload_cv_body E file)
      (fun e =>
         logger ERROR ("Error processing CV: " +:+ str E e) ;;
         ret (JDict [("error", JStr (str E e))]))
      (add_log (INFO, "Received file upload: " +:+ filename file) w).
Proof.
  intros Hpdf. unfold upload_cv. unfold bind at 1. unfold logger at 1. wsimpl.
  rewrite Hpdf. reflexivity.
Qed.

Lemma upload_cv_body_miss (file : UploadFile) (w : world) :
  let h := get_file_hash E (file_bytes file) in
  cache_miss E h w = true ->
  upload_cv_body E file w =
    process_upload E (file_bytes file) h
      (snd (get_from_cache E h (add_log (INFO, "Generated hash for file: " +:+ h) w))).
Proof.
  intros h Hmiss.
  rewrite <- (cache_miss_add_log E h (INFO, "Generated hash for file: " +:+ h)) in Hmiss.
  unfold cache_miss in Hmiss.
  unfold upload_cv_body. fold h. unfold bind, logger. wsimpl.
  destruct (get_from_cache E h (add_log (INFO, "Generated hash for file: " +:+ h) w))
    as [[[hit|]|e] w2]; wsimpl in *.
  - apply negb_true_iff in Hmiss. rewrite Hmiss. reflexivity.
  - reflexivity.
  - discriminate.
Qed.

(** The lookup raises: so does the body, at once. *)
Lemma upload_cv_body_lookup_raises (file : UploadFile) (w : world) (e : exn) :
  let h := get_file_hash E (file_bytes file) in
  fst (get_from_cache E h w) = Raise e ->
  upload_cv_body E file w =
    (Raise e,
     snd (get_from_cache E h (add_log (INFO, "Generated hash for file: " +:+ h) w))).
Proof.
  intros h Hraise.
  rewrite <- (get_from_cache_fst_add_log h (INFO, "Generated hash for file: " +:+ h))
    in Hraise.
  unfold upload_cv_body. fold h. unfold bind, logger. wsimpl.
  destruct (get_from_cache E h (add_log (INFO, "Generated hash for file: " +:+ h) w))
    as [r w2]; wsimpl in *.
  subst r. reflexivity.
Qed.

Lemma upload_cv_body_hit (file : UploadFile) (w : world) (hit : json) :
  let h := get_file_hash E (file_bytes file) in
  fst (get_from_cache E h w) = Ok (Some hit) ->
  truthy hit = true ->
  upload_cv_body E file w =
    (Ok hit,
     add_log (INFO, "Returning cached result for file " +:+ filename file)
       (snd (get_from_cache E h (add_log (INFO, "Generated hash for file: " +:+ h) w)))).
Proof.
  intros h Hhit Htrue.
  rewrite <- (get_from_cache_fst_add_log h (INFO, "Generated hash for file: " +:+ h)) in Hhit.
  unfold upload_cv_body. fold h. unfold bind, logger. wsimpl.
  destruct (get_from_cache E h (add_log (INFO, "Generated hash for file: " +:+ h) w))
    as [r w2]; wsimpl in *.
  subst r. rewrite Htrue. reflexivity.
Qed.

(** C4 at its failing inputs.  When the upload reaches the cache-miss
    branch and text extraction fails, the handler answers with an error
    body and the temporary file it created is still there. *)
Theorem temp_file_left_behind (file : UploadFile) (w : world) (e : exn) :
  endswith (lower (filename file)) ".pdf" = true ->
  cache_miss E (get_file_hash E (file_bytes file)) w = true ->
  PdfReader E (file_bytes file) = Raise e \/
  (exists pages, PdfReader E (file_bytes file) = Ok pages /\
                 pages_text pages "" = Raise e) ->
  let temp_file_path := mkstemp E (dom (tmp_dir w)) in
  fst (upload_cv E file w)
    = Ok (JDict [("error", JStr ("Failed to extract text from PDF: " +:+ str E e))]) /\
  tmp_dir w !! temp_file_path = None /\
  tmp_dir (snd (upload_cv E file w)) !! temp_file_path = Some (file_bytes file).
Proof.
  intros Hpdf Hmiss Hfail path.
  rewrite upload_cv_accepted by exact Hpdf. unfold try_except.
  rewrite upload_cv_body_miss by (rewrite cache_miss_add_log; exact Hmiss).
  match goal with
  | |- context [process_upload E ?c ?h ?w2] =>
      pose proof (process_upload_extraction_fails c h w2 e Hfail) as Hx;
      pose proof (get_from_cache_frame E h
                    (add_log (INFO, "Generated hash for file: " +:+ h)
                       (add_log (INFO, "Received file upload: " +:+ filename file) w)))
        as Hf;
      destruct (process_upload E c h w2) as [r w3]
  end.
  wsimpl in Hx; wsimpl in Hf. destruct Hx as (Hr & Htmp & _). destruct Hf as (_ & _ & Htmp2 & _).
  subst r. wsimpl. rewrite Htmp, Htmp2.
  split; [reflexivity|]. split; [apply mkstemp_unused|].
  apply lookup_insert_eq.
Qed.

(** The world in which the handler leaves the cache test on its miss
    side: the log and one recorded lookup apart, nothing moved but an
    expired record. *)
Lemma after_lookup_frame (file : UploadFile) (w : world) :
  let h := get_file_hash E (file_bytes file) in
  let w2 := snd (get_from_cache E h
                   (add_log (INFO, "Generated hash for file: " +:+ h)
                      (add_log (INFO, "Received file upload: " +:+ filename file) w))) in
  now w2 = now w /\ cache_dir_writable w2 = cache_dir_writable w /\
  tmp_dir w2 = tmp_dir w /\ api_requests w2 = api_requests w /\
  calls w2 = (calls w ++ [CallGet h])%list /\
  (cache_dir w2 = cache_dir w \/ cache_dir w2 = delete (h +:+ ".pkl") (cache_dir w)) /\
  cache_dir_searchable w2 = cache_dir_searchable w.
Proof.
  intros h.
  exact (get_from_cache_frame E h
           (add_log (INFO, "Generated hash for file: " +:+ h)
              (add_log (INFO, "Received file upload: " +:+ filename file) w))).
Qed.

(** On the other exit paths of the miss branch, those on which the
    extraction returns, the temporary file is removed: the temporary
    directory ends as it began. *)
Lemma temp_file_removed_when_extraction_returns (file : UploadFile) (w : world)
    (pages : pdf_pages) (cv_text : string) :
  endswith (lower (filename file)) ".pdf" = true ->
  cache_miss E (get_file_hash E (file_bytes file)) w = true ->
  PdfReader E (file_bytes file) = Ok pages ->
  pages_text pages "" = Ok cv_text ->
  tmp_dir (snd (upload_cv E file w)) = tmp_dir w.
Proof.
  intros Hpdf Hmiss Hp Ht.
  rewrite upload_cv_accepted by exact Hpdf. unfold try_except.
  rewrite upload_cv_body_miss by (rewrite cache_miss_add_log; exact Hmiss).
  pose proof (after_lookup_frame file w) as Hf. cbn zeta in Hf.
  destruct Hf as (_ & _ & Htmp2 & _).
  match goal with
  | |- context [process_upload E ?c ?h ?w2] =>
      assert (Htmp : tmp_dir (snd (process_upload E c h w2)) = tmp_dir w2);
      [ destruct (String.eqb_spec cv_text "") as [Hempty|Hne];
        [ subst cv_text; apply (process_upload_empty_text c h w2 pages Hp Ht)
        | apply (process_upload_text c h w2 pages cv_text Hp Ht Hne) ]
      | destruct (process_upload E c h w2) as [[body|e] w3]; wsimpl in *;
        rewrite Htmp, Htmp2; reflexivity ]
  end.
Qed.

(** C7.  When the upload reaches the cache-miss branch and text
    extraction returns the empty string, the handler raises its "Could
    not extract text from the PDF" error, which the caller receives as
    an error body; the only helpers called are the lookup and the
    extraction, so [save_to_cache] is not, and the cache directory holds
    what it held (an expired record apart, which the lookup removed). *)
Theorem empty_extraction_is_an_error (file : UploadFile) (w : world) (pages : pdf_pages) :
  endswith (lower (filename file)) ".pdf" = true ->
  cache_miss E (get_file_hash E (file_bytes file)) w = true ->
  PdfReader E (file_bytes file) = Ok pages ->
  pages_text pages "" = Ok "" ->
  let h := get_file_hash E (file_bytes file) in
  let w' := snd (upload_cv E file w) in
  fst (upload_cv_body E file
         (add_log (INFO, "Received file upload: " +:+ filename file) w))
    = Raise (HTTPException 400 "Could not extract text from the PDF") /\
  fst (upload_cv E file w)
    = Ok (JDict [("error",
                  JStr (str E (HTTPException 400 "Could not extract text from the PDF")))]) /\
  calls w' = (calls w ++ [CallGet h; CallExtract (mkstemp E (dom (tmp_dir w)))])%list /\
  api_requests w' = api_requests w /\
  (cache_dir w' = cache_dir w \/ cache_dir w' = delete (h +:+ ".pkl") (cache_dir w)).
Proof.
  intros Hpdf Hmiss Hp Ht h.
  rewrite upload_cv_accepted by exact Hpdf. unfold try_except.
  rewrite upload_cv_body_miss by (rewrite cache_miss_add_log; exact Hmiss).
  fold h.
  pose proof (after_lookup_frame file w) as Hf. cbn zeta in Hf. fold h in Hf.
  match goal with
  | |- context [process_upload E ?c h ?w2] =>
      pose proof (process_upload_empty_text c h w2 pages Hp Ht) as Hx;
      destruct (process_upload E c h w2) as [r w3]
  end.
  wsimpl in Hx. destruct Hx as (Hr & Htmp & Hc & Hapi & Hcalls).
  destruct Hf as (_ & _ & Htmp2 & Hapi2 & Hcalls2 & Hc2).
  subst r. wsimpl. rewrite Hcalls, Hcalls2, Htmp2, Hapi, Hapi2, Hc, <- app_assoc.
  tauto.
Qed.

(** C6.  A file name that does not end in [.pdf], whatever its case,
    makes [upload_cv] raise the 400; nothing is read or looked up.  With
    a [.pdf] name [upload_cv] always returns a body, and every exception
    of its guarded block becomes the body [{"error": str(e)}]: so it is
    for a failed extraction and for a failed structuring. *)
Theorem upload_error_propagation (file : UploadFile) (w : world) :
  (endswith (lower (filename file)) ".pdf" = false ->
   fst (upload_cv E file w) = Raise (HTTPException 400 "Only PDF files are accepted") /\
   calls (snd (upload_cv E file w)) = calls w) /\
  (endswith (lower (filename file)) ".pdf" = true ->
   (exists body, fst (upload_cv E file w) = Ok body) /\
   (forall e,
      fst (upload_cv_body E file
             (add_log (INFO, "Received file upload: " +:+ filename file) w)) = Raise e ->
      fst (upload_cv E file w) = Ok (JDict [("error", JStr (str E e))])) /\
   (cache_miss E (get_file_hash E (file_bytes file)) w = true ->
    (forall e,
       PdfReader E (file_bytes file) = Raise e \/
       (exists pages, PdfReader E (file_bytes file) = Ok pages /\
                      pages_text pages "" = Raise e) ->
       fst (upload_cv E file w)
         = Ok (JDict [("error", JStr ("Failed to extract text from PDF: " +:+ str E e))])) /\
    (forall pages cv_text e,
       PdfReader E (file_bytes file) = Ok pages ->
       pages_text pages "" = Ok cv_text ->
       cv_text <> "" ->
       structuring_outcome E (api_requests w) cv_text = Raise e ->
       fst (upload_cv E file w)
         = Ok (JDict [("error", JStr ("OpenAI API error: " +:+ str E e))])))).
Proof.
  split.
  - intros Hpdf. rewrite upload_cv_rejected by exact Hpdf. split; reflexivity.
  - intros Hpdf.
    assert (Hcatch : forall e,
              fst (upload_cv_body E file
                     (add_log (INFO, "Received file upload: " +:+ filename file) w))
                = Raise e ->
              fst (upload_cv E file w) = Ok (JDict [("error", JStr (str E e))])).
    { intros e He. rewrite upload_cv_accepted by exact Hpdf. unfold try_except.
      destruct (upload_cv_body E file _) as [r w1]. wsimpl in He. subst r. reflexivity. }
    split; [|split; [exact Hcatch|]].
    + rewrite upload_cv_accepted by exact Hpdf. unfold try_except.
      destruct (upload_cv_body E file _) as [[body|e] w1].
      * exists body. reflexivity.
      * eexists. reflexivity.
    + intros Hmiss. split.
      * intros e Hfail.
        rewrite (Hcatch (PyError "Exception"
                           ("Failed to extract text from PDF: " +:+ str E e)));
          [reflexivity|].
        rewrite upload_cv_body_miss by (rewrite cache_miss_add_log; exact Hmiss).
        apply process_upload_extraction_fails. exact Hfail.
      * intros pages cv_text e Hp Ht Hne Hs.
        rewrite (Hcatch (PyError "Exception" ("OpenAI API error: " +:+ str E e)));
          [reflexivity|].
        rewrite upload_cv_body_miss by (rewrite cache_miss_add_log; exact Hmiss).
        pose proof (after_lookup_frame file w) as Hf. cbn zeta in Hf.
        destruct Hf as (_ & _ & _ & Hapi & _).
        match goal with
        | |- context [process_upload E ?c ?h ?w2] =>
            pose proof (process_upload_text c h w2 pages cv_text Hp Ht Hne) as Hx
        end.
        cbn zeta in Hx. rewrite Hapi, Hs in Hx. tauto.
Qed.

Lemma get_from_cache_hit (k : string) (w : world) (f : cache_record) (T : Q) (v : json) :
  cache_dir w !! (k +:+ ".pkl") = Some f ->
  readable f = true -> data f = Pickled T v ->
  (now w - T <= inject_Z CACHE_EXPIRY)%Q ->
  get_from_cache E k w =
    (Ok (Some v),
     add_log (INFO, "Cache hit: Using cached result for hash " +:+ k)
       (add_call (CallGet k) w)).
Proof.
  intros H Hr Hd Ht. rewrite (get_from_cache_found _ _ _ _ H). unfold try_except.
  erewrite load_entry_fresh;
    [reflexivity | wsimpl; exact H | exact Hr | exact Hd | wsimpl; apply fresh_of_age; exact Ht].
Qed.

(** C9.  When the record of the uploaded content is readable, not
    expired and holds a falsy value (the empty object, say), the lookup
    succeeds and the handler nevertheless takes the miss side: it calls
    the extractor again; with a text extracted it calls the structuring
    service again; and with an answer parsed it returns that answer and,
    the record being writable and the answer one that pickle serialises,
    overwrites the record with it. *)
Theorem falsy_hit_is_reprocessed (file : UploadFile) (w : world)
    (f : cache_record) (T : Q) (v : json) :
  let h := get_file_hash E (file_bytes file) in
  let w' := snd (upload_cv E file w) in
  endswith (lower (filename file)) ".pdf" = true ->
  cache_dir w !! (h +:+ ".pkl") = Some f ->
  readable f = true -> data f = Pickled T v ->
  (now w - T <= inject_Z CACHE_EXPIRY)%Q ->
  truthy v = false ->
  fst (get_from_cache E h w) = Ok (Some v) /\
  cache_miss E h w = true /\
  CallExtract (mkstemp E (dom (tmp_dir w))) ∈ calls_since w w' /\
  (forall pages cv_text,
     PdfReader E (file_bytes file) = Ok pages ->
     pages_text pages "" = Ok cv_text ->
     cv_text <> "" ->
     CallGenerate cv_text ∈ calls_since w w' /\
     (forall json_data,
        structuring_outcome E (api_requests w) cv_text = Ok json_data ->
        fst (upload_cv E file w) = Ok json_data /\
        CallSave h json_data ∈ calls_since w w' /\
        (writable f = true ->
         picklable E json_data = true ->
         cache_dir w' !! (h +:+ ".pkl")
           = Some (mkFile (Pickled (now w) json_data) true true)))).
Proof.
  intros h w' Hpdf H Hr Hd Ht Hv.
  assert (Hget : fst (get_from_cache E h w) = Ok (Some v)).
  { erewrite get_from_cache_hit by eassumption. reflexivity. }
  assert (Hmiss : cache_miss E h w = true).
  { unfold cache_miss. rewrite Hget, Hv. reflexivity. }
  pose proof (after_lookup_frame file w) as Hf. cbn zeta in Hf. fold h in Hf.
  assert (Hc2 : cache_dir (snd (get_from_cache E h
                   (add_log (INFO, "Generated hash for file: " +:+ h)
                      (add_log (INFO, "Received file upload: " +:+ filename file) w))))
                = cache_dir w).
  { erewrite get_from_cache_hit; [reflexivity | wsimpl; exact H | exact Hr | exact Hd | exact Ht]. }
  destruct Hf as (Hnow2 & Hcw2 & Htmp2 & Hapi2 & Hcalls2 & _).
  assert (Hup : upload_cv E file w =
                try_except
                  (process_upload E (file_bytes file) h)
                  (fun e =>
                     logger ERROR ("Error processing CV: " +:+ str E e) ;;
                     ret (JDict [("error", JStr (str E e))]))
                  (snd (get_from_cache E h
                     (add_log (INFO, "Generated hash for file: " +:+ h)
                        (add_log (INFO, "Received file upload: " +:+ filename file) w))))).
  { rewrite upload_cv_accepted by exact Hpdf. unfold try_except.
    rewrite upload_cv_body_miss by (rewrite cache_miss_add_log; exact Hmiss).
    reflexivity. }
  set (w2 := snd (get_from_cache E h
                    (add_log (INFO, "Generated hash for file: " +:+ h)
                       (add_log (INFO, "Received file upload: " +:+ filename file) w)))) in *.
  split; [exact Hget|]. split; [exact Hmiss|].
  unfold calls_since. subst w'. rewrite Hup. unfold try_except.
  split.
  - destruct (PdfReader E (file_bytes file)) as [pages|e] eqn:Hp.
    + destruct (pages_text pages "") as [cv_text|e] eqn:Htext.
      * destruct (String.eqb_spec cv_text "") as [->|Hne].
        -- pose proof (process_upload_empty_text (file_bytes file) h w2 pages Hp Htext) as Hx.
           cbn zeta in Hx. destruct (process_upload E (file_bytes file) h w2) as [r w3].
           wsimpl in Hx. destruct Hx as (-> & _ & _ & _ & Hcalls). wsimpl.
           rewrite Hcalls, Hcalls2, Htmp2, <- app_assoc, drop_app_length. set_solver.
        -- pose proof (process_upload_text (file_bytes file) h w2 pages cv_text Hp Htext Hne) as Hx.
           cbn zeta in Hx. destruct (process_upload E (file_bytes file) h w2) as [r w3].
           wsimpl in Hx. destruct Hx as (_ & _ & Hx).
           destruct (structuring_outcome E (api_requests w2) cv_text);
             destruct Hx as (-> & Hcalls & _); wsimpl;
             rewrite Hcalls, Hcalls2, Htmp2, <- app_assoc, drop_app_length; set_solver.
      * pose proof (process_upload_extraction_fails (file_bytes file) h w2 e
                      (or_intror (ex_intro _ pages (conj Hp Htext)))) as Hx.
        cbn zeta in Hx. destruct (process_upload E (file_bytes file) h w2) as [r w3].
        wsimpl in Hx. destruct Hx as (-> & _ & _ & _ & Hcalls). wsimpl.
        rewrite Hcalls, Hcalls2, Htmp2, <- app_assoc, drop_app_length. set_solver.
    + pose proof (process_upload_extraction_fails (file_bytes file) h w2 e
                    (or_introl Hp)) as Hx.
      cbn zeta in Hx. destruct (process_upload E (file_bytes file) h w2) as [r w3].
      wsimpl in Hx. destruct Hx as (-> & _ & _ & _ & Hcalls). wsimpl.
      rewrite Hcalls, Hcalls2, Htmp2, <- app_assoc, drop_app_length. set_solver.
  - intros pages cv_text Hp Htext Hne.
    pose proof (process_upload_text (file_bytes file) h w2 pages cv_text Hp Htext Hne) as Hx.
    cbn zeta in Hx. destruct (process_upload E (file_bytes file) h w2) as [r w3].
    wsimpl in Hx. destruct Hx as (_ & _ & Hx). rewrite Hapi2 in Hx.
    split.
    + destruct (structuring_outcome E (api_requests w) cv_text);
        destruct Hx as (-> & Hcalls & _); wsimpl;
        rewrite Hcalls, Hcalls2, <- app_assoc, drop_app_length; set_solver.
    + intros json_data Hs. rewrite Hs in Hx. destruct Hx as (-> & Hcalls & Hcache).
      wsimpl. split; [reflexivity|]. split.
      * rewrite Hcalls, Hcalls2, <- app_assoc, drop_app_length. set_solver.
      * intros Hw Hpk. rewrite Hcache. unfold can_write, can_read_back.
        rewrite Hc2, H, Hw, Hr, Hnow2, Hpk. apply lookup_insert_eq.
Qed.

(** C10.  For a parseable PDF with at least one page
    [extract_text_from_pdf] returns a text, and the text is not empty;
    more generally a text returned for a PDF with a page is not empty.
    So the only way into the empty-text branch of [upload_cv], the one
    that raises "Could not extract text from the PDF", is a PDF without
    pages. *)
Theorem extraction_nonempty :
  (forall file_path w bytes ts,
     tmp_dir w !! file_path = Some bytes ->
     PdfReader E bytes = Ok (map Ok ts) ->
     ts <> [] ->
     exists text, fst (extract_text_from_pdf E file_path w) = Ok text /\ text <> "") /\
  (forall file_path w bytes pages text,
     tmp_dir w !! file_path = Some bytes ->
     PdfReader E bytes = Ok pages ->
     pages <> [] ->
     fst (extract_text_from_pdf E file_path w) = Ok text ->
     text <> "") /\
  (forall (file : UploadFile) w,
     fst (upload_cv_body E file w)
       = Raise (HTTPException 400 "Could not extract text from the PDF") ->
     PdfReader E (file_bytes file) = Ok []).
Proof.
  assert (Hlen : forall pages text, pages_text pages "" = Ok text -> pages <> [] -> text <> "").
  { intros pages text Ht Hne ->. apply pages_text_length in Ht. wsimpl in Ht.
    destruct pages; [congruence | wsimpl in Ht; lia]. }
  split; [|split].
  - intros file_path w bytes ts Hf Hp Hne.
    pose proof (pages_text_terminated ts "") as Ht.
    eexists. split.
    + erewrite extract_text_from_pdf_ok by eassumption. reflexivity.
    + eapply Hlen; [exact Ht|]. destruct ts; [congruence | discriminate].
  - intros file_path w bytes pages text Hf Hp Hne Hx.
    destruct (pages_text pages "") as [text'|e] eqn:Ht.
    + erewrite extract_text_from_pdf_ok in Hx by eassumption.
      wsimpl in Hx. injection Hx as <-. eapply Hlen; eassumption.
    + erewrite extract_text_from_pdf_bad_page in Hx by eassumption.
      discriminate.
  - intros file w Hraise.
    set (h := get_file_hash E (file_bytes file)).
    destruct (cache_miss E h w) eqn:Hmiss.
    + rewrite upload_cv_body_miss in Hraise by exact Hmiss. fold h in Hraise.
      match type of Hraise with
      | context [process_upload E ?c h ?w2] => set (w2' := w2) in *
      end.
      destruct (PdfReader E (file_bytes file)) as [pages|e] eqn:Hp.
      * destruct (pages_text pages "") as [cv_text|e] eqn:Ht.
        -- destruct (String.eqb_spec cv_text "") as [->|Hne].
           ++ apply pages_text_length in Ht. wsimpl in Ht.
              destruct pages; [reflexivity | wsimpl in Ht; lia].
           ++ pose proof (process_upload_text (file_bytes file) h w2' pages cv_text
                            Hp Ht Hne) as Hx.
              cbn zeta in Hx. destruct Hx as (_ & _ & Hx).
              destruct (structuring_outcome E (api_requests w2') cv_text);
                destruct Hx as (Hx & _); rewrite Hx in Hraise; discriminate.
        -- pose proof (process_upload_extraction_fails (file_bytes file) h w2' e
                         (or_intror (ex_intro _ pages (conj Hp Ht)))) as Hx.
           cbn zeta in Hx. destruct Hx as (Hx & _). rewrite Hx in Hraise. discriminate.
      * pose proof (process_upload_extraction_fails (file_bytes file) h w2' e
                      (or_introl Hp)) as Hx.
        cbn zeta in Hx. destruct Hx as (Hx & _). rewrite Hx in Hraise. discriminate.
    + unfold cache_miss in Hmiss.
      destruct (fst (get_from_cache E h w)) as [[hit|]|e] eqn:Hget; try discriminate.
      * apply negb_false_iff in Hmiss.
        rewrite (upload_cv_body_hit file w hit Hget Hmiss) in Hraise. discriminate.
      * rewrite (upload_cv_body_lookup_raises file w e Hget) in Hraise.
        wsimpl in Hraise. injection Hraise as ->.
        rewrite get_from_cache_result in Hget.
        destruct (cache_dir w !! (h +:+ ".pkl")) as [f|].
        -- destruct (readable f); [|discriminate].
           destruct (data f) as [T v|e0]; [|discriminate].
           destruct (Qgtb _ _); discriminate.
        -- destruct (cache_dir_searchable w); discriminate.
Qed.

End Upload.

(** ** The statements on the sample inputs *)

(** The file name is compared without regard to case. *)
Example upper_case_suffix_accepted :
  endswith (lower "Resume.PDF") ".pdf" = true /\
  endswith (lower "resume.docx") ".pdf" = false /\
  endswith (lower "pdf") ".pdf" = false.
Proof. repeat split; reflexivity. Qed.

(** The scenario of the specification, first upload: a miss, then the
    extractor, the structuring service and the store, in that order; the
    response is the structured object, the record holds it with the time
    of the request, and the temporary file is gone. *)
Example first_upload_scenario :
  let w1 := snd (upload_cv john_doe_externals cv_pdf fresh_world) in
  fst (upload_cv john_doe_externals cv_pdf fresh_world) = Ok john_doe /\
  calls w1 =
    [CallGet sample_hash; CallExtract "0";
     CallGenerate ("John Doe, Engineer..." +:+ LF);
     CallSave sample_hash john_doe] /\
  cache_dir w1 !! (sample_hash +:+ ".pkl")
    = Some (mkFile (Pickled 1000 john_doe) true true) /\
  tmp_dir w1 = ∅.
Proof. vm_compute. repeat split; reflexivity. Qed.

(** C4 on bytes that PyPDF2 rejects: the response is the error body and
    the temporary file [0], which did not exist before the request, is
    left holding the uploaded bytes. *)
Lemma temp_file_left_behind_witness :
  fst (upload_cv unparseable_externals cv_pdf fresh_world)
    = Ok (JDict [("error", JStr "Failed to extract text from PDF: EOF marker not found")]) /\
  tmp_dir fresh_world !! "0" = None /\
  tmp_dir (snd (upload_cv unparseable_externals cv_pdf fresh_world)) !! "0"
    = Some sample_bytes.
Proof.
  apply (temp_file_left_behind unparseable_externals cv_pdf fresh_world
           (PyError "PdfReadError" "EOF marker not found")).
  - reflexivity.
  - vm_compute. reflexivity.
  - left. reflexivity.
Defined.

(** [resume.docx] is refused with the 400. *)
Lemma upload_error_propagation_witness :
  fst (upload_cv cache_externals resume_docx fresh_world)
    = Raise (HTTPException 400 "Only PDF files are accepted") /\
  calls (snd (upload_cv cache_externals resume_docx fresh_world)) = calls fresh_world.
Proof.
  apply (proj1 (upload_error_propagation cache_externals resume_docx fresh_world)).
  reflexivity.
Defined.

(** A PDF without pages: the error body carries the handler's own
    message, and only the lookup and the extraction were called. *)
Lemma empty_extraction_is_an_error_witness :
  fst (upload_cv no_page_externals cv_pdf fresh_world)
    = Ok (JDict [("error", JStr "400: Could not extract text from the PDF")]) /\
  calls (snd (upload_cv no_page_externals cv_pdf fresh_world))
    = [CallGet sample_hash; CallExtract "0"].
Proof.
  destruct (empty_extraction_is_an_error no_page_externals cv_pdf fresh_world [])
    as (_ & Hbody & Hcalls & _).
  - reflexivity.
  - vm_compute. reflexivity.
  - reflexivity.
  - reflexivity.
  - split; [exact Hbody | exact Hcalls].
Defined.

(** A cached empty object: the lookup returns it and the extractor is
    called all the same. *)
Lemma falsy_hit_is_reprocessed_witness :
  fst (get_from_cache empty_result_externals sample_hash empty_hit_world)
    = Ok (Some (JDict [])) /\
  CallExtract "0"
    ∈ calls_since empty_hit_world (snd (upload_cv empty_result_externals cv_pdf empty_hit_world)).
Proof.
  destruct (falsy_hit_is_reprocessed empty_result_externals cv_pdf empty_hit_world
              (mkFile (Pickled 1000 (JDict [])) true true) 1000 (JDict []))
    as (Hget & _ & Hcall & _).
  - reflexivity.
  - vm_compute. reflexivity.
  - reflexivity.
  - reflexivity.
  - vm_compute. discriminate.
  - reflexivity.
  - split; [exact Hget | exact Hcall].
Defined.

(** Two pages give a text that is not empty. *)
Lemma extraction_nonempty_witness :
  exists text,
    fst (extract_text_from_pdf two_page_externals "tmp0.pdf" tmp_world) = Ok text /\
    text <> "".
Proof.
  apply (proj1 (extraction_nonempty two_page_externals) "tmp0.pdf" tmp_world
           sample_bytes ["Alice"; "Bob"]).
  - reflexivity.
  - reflexivity.
  - discriminate.
Defined.

(* ================================================================== *)
(** * Further properties of the cache *)

Lemma append_cancel_r (a b s : string) : a +:+ s = b +:+ s -> a = b.
Proof.
  revert b. induction a as [|x a IH]; intros b H.
  - destruct b as [|y b]; [reflexivity|].
    apply (f_equal String.length) in H.
    rewrite !length_append in H. wsimpl in H. lia.
  - destruct b as [|y b].
    + apply (f_equal String.length) in H.
      rewrite !length_append in H. wsimpl in H. lia.
    + rewrite !append_cons in H. injection H as -> H. f_equal. apply IH, H.
Qed.

Section CacheMore.

Variable E : externals.

(** The cache directory after a lookup, read off the record. *)
Lemma get_from_cache_cache_dir (k : string) (w : world) :
  cache_dir (snd (get_from_cache E k w)) =
    match cache_dir w !! (k +:+ ".pkl") with
    | Some f =>
        if readable f then
          match data f with
          | Pickled T v =>
              if Qgtb (float_sub E (now w) T) (inject_Z CACHE_EXPIRY)
                 && cache_dir_writable w
              then delete (k +:+ ".pkl") (cache_dir w)
              else cache_dir w
          | Corrupt _ => cache_dir w
          end
        else cache_dir w
    | None => cache_dir w
    end.
Proof.
  destruct (cache_dir w !! (k +:+ ".pkl")) as [f|] eqn:H.
  - pose proof (searchable_of_lookup _ _ _ H) as Hs.
    rewrite (get_from_cache_found _ _ _ _ H). unfold try_except.
    destruct (readable f) eqn:Hr.
    + destruct (data f) as [T v|e] eqn:Hd.
      * destruct (Qgtb (float_sub E (now w) T) (inject_Z CACHE_EXPIRY)) eqn:Hq.
        -- erewrite load_entry_expired by (try exact Hd; try exact Hr; try exact Hq; wsimpl; eassumption).
           cbn. destruct (cache_dir_writable w); wsimpl;
             rewrite ?cache_dir_set_cache_dir by exact Hs; reflexivity.
        -- erewrite load_entry_fresh by (try exact Hd; try exact Hr; try exact Hq; wsimpl; eassumption).
           reflexivity.
      * erewrite load_entry_corrupt by (try exact Hd; try exact Hr; wsimpl; eassumption).
        reflexivity.
    + erewrite load_entry_unreadable by (try exact Hr; wsimpl; eassumption).
      reflexivity.
  - destruct (cache_dir_searchable w) eqn:Hs.
    + rewrite get_from_cache_missing by assumption. reflexivity.
    + rewrite get_from_cache_unsearchable by assumption. reflexivity.
Qed.

(** X9.  A readable, well-formed record is served exactly while the age
    the code computes, the float [time.time() - timestamp], is at most
    [CACHE_EXPIRY].  On the clock that means: a record is served up to
    the very end of its seven days, and one stamped in the future (the
    clock was set back) is served however long it is kept; a record is
    not served once seven days and a second have passed.  In the second
    between, the rounding of the subtraction decides. *)
Theorem hit_iff_age_within_expiry (k : string) (w : world) (f : cache_record)
    (T : Q) (v : json) :
  cache_dir w !! (k +:+ ".pkl") = Some f ->
  readable f = true ->
  data f = Pickled T v ->
  (fst (get_from_cache E k w) = Ok (Some v)
   <-> (float_sub E (now w) T <= inject_Z CACHE_EXPIRY)%Q) /\
  (fst (get_from_cache E k w) = Ok None
   <-> (inject_Z CACHE_EXPIRY < float_sub E (now w) T)%Q) /\
  ((now w - T <= inject_Z CACHE_EXPIRY)%Q -> fst (get_from_cache E k w) = Ok (Some v)) /\
  ((now w <= T)%Q -> fst (get_from_cache E k w) = Ok (Some v)) /\
  ((T + inject_Z CACHE_EXPIRY + 1 <= now w)%Q -> fst (get_from_cache E k w) = Ok None).
Proof.
  intros H Hr Hd. rewrite get_from_cache_result, H, Hr, Hd.
  assert (Hpos : (0 <= inject_Z CACHE_EXPIRY)%Q) by (vm_compute; discriminate).
  destruct (Qgtb (float_sub E (now w) T) (inject_Z CACHE_EXPIRY)) eqn:Hq.
  - split; [|split; [|split; [|split]]].
    + split; [discriminate|]. intros Hle. apply Qgtb_true in Hq.
      exfalso. apply (Qlt_not_le _ _ Hq Hle).
    + split; [intros _; apply Qgtb_true, Hq | reflexivity].
    + intros Hle. rewrite fresh_of_age in Hq by exact Hle. discriminate.
    + intros Hle. rewrite fresh_of_age in Hq by lra. discriminate.
    + reflexivity.
  - split; [|split; [|split; [|split]]].
    + split; [intros _; apply Qgtb_false, Hq | reflexivity].
    + split; [discriminate|]. intros Hlt. apply Qgtb_false in Hq.
      exfalso. apply (Qlt_not_le _ _ Hlt Hq).
    + reflexivity.
    + reflexivity.
    + intros Hge. rewrite expired_of_age in Hq by exact Hge. discriminate.
Qed.

(** X10.  At a fixed time a second lookup of the same key returns what the
    first returned and finds the cache directory as the first left it:
    an expired record is purged once, and a hit changes nothing. *)
Theorem lookup_is_idempotent (k : string) (w : world) :
  let w1 := snd (get_from_cache E k w) in
  fst (get_from_cache E k w1) = fst (get_from_cache E k w) /\
  cache_dir (snd (get_from_cache E k w1)) = cache_dir w1 /\
  (forall v, fst (get_from_cache E k w) = Ok (Some v) -> cache_dir w1 = cache_dir w).
Proof.
  intros w1.
  pose proof (get_from_cache_frame E k w) as (Hnow & Hdw & _ & _ & _ & _ & Hsearch).
  fold w1 in Hnow, Hdw, Hsearch.
  pose proof (get_from_cache_cache_dir k w) as Hc. fold w1 in Hc.
  rewrite (get_from_cache_cache_dir k w1), (get_from_cache_result E k w1),
    (get_from_cache_result E k w), Hnow, Hdw, Hsearch.
  destruct (cache_dir w !! (k +:+ ".pkl")) as [f|] eqn:H.
  - pose proof (searchable_of_lookup _ _ _ H) as Hs.
    destruct (readable f) eqn:Hr.
    + destruct (data f) as [T v|e] eqn:Hd.
      * destruct (Qgtb (float_sub E (now w) T) (inject_Z CACHE_EXPIRY)) eqn:Hq.
        -- destruct (cache_dir_writable w) eqn:Hw; cbn in Hc; rewrite Hc.
           ++ rewrite lookup_delete_eq, Hs.
              split; [reflexivity|]. split; [reflexivity|]. discriminate.
           ++ rewrite H, Hr, Hd, Hq. cbn.
              split; [reflexivity|]. split; [reflexivity|]. discriminate.
        -- cbn in Hc. rewrite Hc, H, Hr, Hd, Hq. cbn.
           split; [reflexivity|]. split; reflexivity.
      * rewrite Hc, H, Hr, Hd.
        split; [reflexivity|]. split; [reflexivity|]. discriminate.
    + rewrite Hc, H, Hr.
      split; [reflexivity|]. split; [reflexivity|]. discriminate.
  - rewrite Hc, H.
    split; [reflexivity|]. split; [reflexivity|].
    destruct (cache_dir_searchable w); discriminate.
Qed.

(** X11.  A store under one hash leaves every other hash alone: the record of
    another hash is what it was, and so is what a lookup of it returns. *)
Theorem store_leaves_other_keys (k k' : string) (v : json) (w : world) :
  k <> k' ->
  let w1 := snd (save_to_cache E k v w) in
  cache_dir w1 !! (k' +:+ ".pkl") = cache_dir w !! (k' +:+ ".pkl") /\
  fst (get_from_cache E k' w1) = fst (get_from_cache E k' w).
Proof.
  intros Hne w1.
  assert (Hname : k +:+ ".pkl" <> k' +:+ ".pkl").
  { intros Heq. apply Hne. eapply append_cancel_r, Heq. }
  pose proof (save_to_cache_spec E k v w) as (_ & Hnow & _ & _ & _ & Hsearch & Hc).
  fold w1 in Hnow, Hsearch, Hc.
  assert (Hl : cache_dir w1 !! (k' +:+ ".pkl") = cache_dir w !! (k' +:+ ".pkl")).
  { rewrite Hc. destruct (can_write (k +:+ ".pkl") w); [|reflexivity].
    apply lookup_insert_ne. exact Hname. }
  split; [exact Hl|].
  rewrite !get_from_cache_result, Hl, Hnow, Hsearch. reflexivity.
Qed.

(** X12.  What a lookup writes to the log.  A plain miss writes nothing: its
    message is at DEBUG, below the configured level.  When the record
    exists and the guarded block raises, the last record of the log is at
    ERROR and carries the message of the error; so it is for a record
    that may not be read. *)
Theorem lookup_logging (k : string) (w : world) :
  (cache_dir w !! (k +:+ ".pkl") = None ->
   log (snd (get_from_cache E k w)) = log w) /\
  (forall f e w1,
     cache_dir w !! (k +:+ ".pkl") = Some f ->
     load_entry E k (k +:+ ".pkl") (add_call (CallGet k) w) = (Raise e, w1) ->
     log (snd (get_from_cache E k w))
       = (log w1 ++ [(ERROR, "Error reading cache: " +:+ str E e)])%list) /\
  (forall f,
     cache_dir w !! (k +:+ ".pkl") = Some f -> readable f = false ->
     log (snd (get_from_cache E k w))
       = (log w ++ [(ERROR, "Error reading cache: [Errno 13] Permission denied: 'cv_cache/"
                            +:+ k +:+ ".pkl'")])%list).
Proof.
  repeat split.
  - intros H. destruct (cache_dir_searchable w) eqn:Hs.
    + rewrite get_from_cache_missing by assumption. reflexivity.
    + rewrite get_from_cache_unsearchable by assumption. reflexivity.
  - intros f e w1 H Hload.
    rewrite (get_from_cache_found _ _ _ _ H). unfold try_except.
    rewrite Hload. reflexivity.
  - intros f H Hr.
    rewrite (get_from_cache_found _ _ _ _ H). unfold try_except.
    erewrite load_entry_unreadable by (try exact Hr; wsimpl; eassumption).
    cbn. unfold cache_path. rewrite !append_assoc. reflexivity.
Qed.

End CacheMore.

(* ================================================================== *)
(** * Further properties of the two collaborators' wrappers *)

(** The loop stops at the first page that fails: the pages before it
    are read, the pages after it are not. *)
Lemma pages_text_first_error (ts : list string) (e : exn) (rest : pdf_pages)
    (text : string) :
  pages_text (map Ok ts ++ Raise e :: rest)%list text = Raise e.
Proof.
  revert text. induction ts as [|t ts IH]; intros text; [reflexivity|].
  cbn [map app pages_text]. apply IH.
Qed.

Section Wrappers.

Variable E : externals.

(** X13.  [extract_text_from_pdf] returns a text or raises a plain [Exception]
    whose message is "Failed to extract text from PDF: " followed by the
    message of the cause, whatever the class of the cause: a temporary
    file that is missing, or a page that fails after pages that were read,
    whose text is then dropped.  It changes no file and sends no
    request. *)
Theorem extraction_errors_are_wrapped (file_path : string) (w : world) :
  let w' := snd (extract_text_from_pdf E file_path w) in
  ((exists text, fst (extract_text_from_pdf E file_path w) = Ok text) \/
   (exists e, fst (extract_text_from_pdf E file_path w)
              = Raise (PyError "Exception"
                         ("Failed to extract text from PDF: " +:+ str E e)))) /\
  (tmp_dir w !! file_path = None ->
   fst (extract_text_from_pdf E file_path w)
     = Raise (PyError "Exception"
                ("Failed to extract text from PDF: " +:+ str E (no_such_file file_path)))) /\
  (forall bytes ts e rest,
     tmp_dir w !! file_path = Some bytes ->
     PdfReader E bytes = Ok (map Ok ts ++ Raise e :: rest)%list ->
     fst (extract_text_from_pdf E file_path w)
       = Raise (PyError "Exception" ("Failed to extract text from PDF: " +:+ str E e))) /\
  now w' = now w /\ cache_dir w' = cache_dir w /\
  cache_dir_writable w' = cache_dir_writable w /\ tmp_dir w' = tmp_dir w /\
  api_requests w' = api_requests w /\
  calls w' = (calls w ++ [CallExtract file_path])%list.
Proof.
  cbn zeta.
  split; [|split; [|split]].
  - destruct (tmp_dir w !! file_path) as [bytes|] eqn:Hf.
    + destruct (PdfReader E bytes) as [pages|e] eqn:Hp.
      * destruct (pages_text pages "") as [text|e] eqn:Ht.
        -- left. exists text. erewrite extract_text_from_pdf_ok by eassumption. reflexivity.
        -- right. exists e. erewrite extract_text_from_pdf_bad_page by eassumption.
           reflexivity.
      * right. exists e. erewrite extract_text_from_pdf_unparseable by eassumption.
        reflexivity.
    + right. exists (no_such_file file_path).
      unfold extract_text_from_pdf. unfold_py. wsimpl. rewrite Hf. reflexivity.
  - intros Hf. unfold extract_text_from_pdf. unfold_py. wsimpl. rewrite Hf. reflexivity.
  - intros bytes ts e rest Hf Hp.
    erewrite extract_text_from_pdf_bad_page;
      [reflexivity | exact Hf | exact Hp | apply pages_text_first_error].
  - unfold extract_text_from_pdf. unfold_py. wsimpl.
    destruct (tmp_dir w !! file_path) as [bytes|]; wsimpl; [|tauto].
    destruct (PdfReader E bytes) as [pages|e]; wsimpl; [|tauto].
    rewrite extract_pages_pure.
    destruct (pages_text pages "") as [text|e]; wsimpl; tauto.
Qed.

(** X14.  What [generate_json_from_text] makes of an answer that parses: a
    string, a list or a dict is returned as it is, since [len] accepts
    it; [null], a boolean or a number is refused, the [TypeError] of
    [len] being wrapped like every other error. *)
Theorem scalar_answers_are_refused (cv_text : string) (w : world)
    (content : string) (json_data : json) :
  chat_completion E (api_requests w) (user_content cv_text) = Ok content ->
  json_loads E content = Ok json_data ->
  fst (generate_json_from_text E cv_text w) =
    match json_data with
    | JStr _ | JList _ | JDict _ => Ok json_data
    | JNull =>
        Raise (PyError "Exception"
                 "OpenAI API error: object of type 'NoneType' has no len()")
    | JBool _ =>
        Raise (PyError "Exception" "OpenAI API error: object of type 'bool' has no len()")
    | JInt _ =>
        Raise (PyError "Exception" "OpenAI API error: object of type 'int' has no len()")
    | JFloat _ =>
        Raise (PyError "Exception" "OpenAI API error: object of type 'float' has no len()")
    end.
Proof.
  intros Hc Hj.
  destruct (generate_json_from_text_spec E cv_text w) as (Hr & _).
  rewrite Hr. unfold structuring_outcome. rewrite Hc, Hj.
  destruct json_data; reflexivity.
Qed.

(** X15.  Every call of [generate_json_from_text] sends exactly one request,
    whether it succeeds or not, and touches no file; what it raises is
    always a plain [Exception] whose message starts with "OpenAI API
    error: ". *)
Theorem structuring_sends_one_request (cv_text : string) (w : world) :
  let w' := snd (generate_json_from_text E cv_text w) in
  api_requests w' = S (api_requests w) /\
  cache_dir w' = cache_dir w /\ tmp_dir w' = tmp_dir w /\
  calls w' = (calls w ++ [CallGenerate cv_text])%list /\
  (forall e, fst (generate_json_from_text E cv_text w) = Raise e ->
             exists cause, e = PyError "Exception" ("OpenAI API error: " +:+ str E cause)) /\
  (forall cause, chat_completion E (api_requests w) (user_content cv_text) = Raise cause ->
                 fst (generate_json_from_text E cv_text w)
                   = Raise (PyError "Exception" ("OpenAI API error: " +:+ str E cause))).
Proof.
  destruct (generate_json_from_text_spec E cv_text w)
    as (Hr & _ & Hc & _ & Htmp & Hapi & Hcalls & _).
  cbn zeta. repeat split; try assumption.
  - intros e He. rewrite Hr in He.
    destruct (structuring_outcome E (api_requests w) cv_text) as [j|cause];
      [discriminate|].
    injection He as <-. exists cause. reflexivity.
  - intros cause Hc'. rewrite Hr. unfold structuring_outcome. rewrite Hc'. reflexivity.
Qed.

End Wrappers.

(* ================================================================== *)
(** * The paths through the upload handler *)

Section Paths.

Variable E : externals.

(** A lookup does the same to the files whatever the log holds. *)
Lemma lookup_world_add_log (k : string) (r : level * string) (w : world) :
  let a := snd (get_from_cache E k (add_log r w)) in
  let b := snd (get_from_cache E k w) in
  now a = now b /\ cache_dir a = cache_dir b /\
  cache_dir_writable a = cache_dir_writable b /\ tmp_dir a = tmp_dir b /\
  api_requests a = api_requests b /\ calls a = calls b /\
  cache_dir_searchable a = cache_dir_searchable b.
Proof.
  cbn zeta.
  pose proof (get_from_cache_frame E k (add_log r w))
    as (Ha1 & Ha2 & Ha3 & Ha4 & Ha5 & _ & Ha6).
  pose proof (get_from_cache_frame E k w) as (Hb1 & Hb2 & Hb3 & Hb4 & Hb5 & _ & Hb6).
  rewrite Ha1, Ha2, Ha3, Ha4, Ha5, Ha6, Hb1, Hb2, Hb3, Hb4, Hb5, Hb6.
  rewrite !get_from_cache_cache_dir. wsimpl. tauto.
Qed.

Lemma hit_leaves_cache_dir (k : string) (w : world) (v : json) :
  fst (get_from_cache E k w) = Ok (Some v) ->
  cache_dir (snd (get_from_cache E k w)) = cache_dir w.
Proof.
  rewrite get_from_cache_result, get_from_cache_cache_dir.
  destruct (cache_dir w !! (k +:+ ".pkl")) as [f|]; [|reflexivity].
  destruct (readable f); [|reflexivity].
  destruct (data f) as [T v'|e]; [|reflexivity].
  destruct (Qgtb (float_sub E (now w) T) (inject_Z CACHE_EXPIRY));
    [discriminate | reflexivity].
Qed.

(** A lookup raises only in a directory that may not be searched, and
    then changes nothing. *)
Lemma lookup_raises (k : string) (w : world) (e : exn) :
  fst (get_from_cache E k w) = Raise e ->
  cache_dir_searchable w = false /\
  e = permission_denied (cache_path (k +:+ ".pkl")) /\
  cache_dir (snd (get_from_cache E k w)) = cache_dir w.
Proof.
  intros He. destruct (cache_dir_searchable w) eqn:Hs.
  - destruct (get_from_cache_returns E k w Hs) as (r & Hr). congruence.
  - rewrite get_from_cache_unsearchable in * by exact Hs. cbn in He.
    injection He as <-. repeat split; reflexivity.
Qed.

(** The seven ways through [upload_cv], with what each returns, which
    helpers it calls and what it does to the files and to the count of
    requests.  [w2] is the world the lookup leaves, [body] what the
    guarded block of the handler returns or raises. *)
Lemma upload_cv_paths (file : UploadFile) (w : world) :
  let h := get_file_hash E (file_bytes file) in
  let name := h +:+ ".pkl" in
  let w2 := snd (get_from_cache E h w) in
  let w' := snd (upload_cv E file w) in
  let p := mkstemp E (dom (tmp_dir w)) in
  let error_body msg := Ok (JDict [("error", JStr msg)]) in
  let body :=
    fst (upload_cv_body E file
           (add_log (INFO, "Received file upload: " +:+ filename file) w)) in
  (* the file name is refused *)
  (endswith (lower (filename file)) ".pdf" = false /\
   fst (upload_cv E file w) = Raise (HTTPException 400 "Only PDF files are accepted") /\
   calls_since w w' = [] /\ cache_dir w' = cache_dir w /\
   tmp_dir w' = tmp_dir w /\ api_requests w' = api_requests w) \/
  (* the cache answers *)
  (endswith (lower (filename file)) ".pdf" = true /\
   exists hit,
     fst (get_from_cache E h w) = Ok (Some hit) /\ truthy hit = true /\
     fst (upload_cv E file w) = Ok hit /\
     calls_since w w' = [CallGet h] /\ cache_dir w' = cache_dir w /\
     tmp_dir w' = tmp_dir w /\ api_requests w' = api_requests w /\
     body = Ok hit) \/
  (* the extraction raises *)
  (endswith (lower (filename file)) ".pdf" = true /\ cache_miss E h w = true /\
   exists e,
     (PdfReader E (file_bytes file) = Raise e \/
      exists pages, PdfReader E (file_bytes file) = Ok pages /\
                    pages_text pages "" = Raise e) /\
     fst (upload_cv E file w)
       = error_body ("Failed to extract text from PDF: " +:+ str E e) /\
     calls_since w w' = [CallGet h; CallExtract p] /\ cache_dir w' = cache_dir w2 /\
     tmp_dir w' = <[p := file_bytes file]> (tmp_dir w) /\
     api_requests w' = api_requests w /\
     body = Raise (PyError "Exception" ("Failed to extract text from PDF: " +:+ str E e))) \/
  (* the extraction returns the empty string *)
  (endswith (lower (filename file)) ".pdf" = true /\ cache_miss E h w = true /\
   exists pages,
     PdfReader E (file_bytes file) = Ok pages /\ pages_text pages "" = Ok "" /\
     fst (upload_cv E file w)
       = error_body (str E (HTTPException 400 "Could not extract text from the PDF")) /\
     calls_since w w' = [CallGet h; CallExtract p] /\ cache_dir w' = cache_dir w2 /\
     tmp_dir w' = tmp_dir w /\ api_requests w' = api_requests w /\
     body = Raise (HTTPException 400 "Could not extract text from the PDF")) \/
  (* the structuring raises *)
  (endswith (lower (filename file)) ".pdf" = true /\ cache_miss E h w = true /\
   exists pages cv_text e,
     PdfReader E (file_bytes file) = Ok pages /\ pages_text pages "" = Ok cv_text /\
     cv_text <> "" /\ structuring_outcome E (api_requests w) cv_text = Raise e /\
     fst (upload_cv E file w) = error_body ("OpenAI API error: " +:+ str E e) /\
     calls_since w w' = [CallGet h; CallExtract p; CallGenerate cv_text] /\
     cache_dir w' = cache_dir w2 /\
     tmp_dir w' = tmp_dir w /\ api_requests w' = S (api_requests w) /\
     body = Raise (PyError "Exception" ("OpenAI API error: " +:+ str E e))) \/
  (* the structuring returns *)
  (endswith (lower (filename file)) ".pdf" = true /\ cache_miss E h w = true /\
   exists pages cv_text json_data,
     PdfReader E (file_bytes file) = Ok pages /\ pages_text pages "" = Ok cv_text /\
     cv_text <> "" /\ structuring_outcome E (api_requests w) cv_text = Ok json_data /\
     fst (upload_cv E file w) = Ok json_data /\
     calls_since w w'
       = [CallGet h; CallExtract p; CallGenerate cv_text; CallSave h json_data] /\
     cache_dir w' =
       (if can_write name w2
        then <[name := mkFile (if picklable E json_data then Pickled (now w) json_data
                               else Corrupt (dump_leftover E json_data))
                              (can_read_back name w2) true]>
               (cache_dir w2)
        else cache_dir w2) /\
     tmp_dir w' = tmp_dir w /\ api_requests w' = S (api_requests w) /\
     body = Ok json_data) \/
  (* the lookup raises *)
  (endswith (lower (filename file)) ".pdf" = true /\ cache_miss E h w = false /\
   cache_dir_searchable w = false /\
   fst (get_from_cache E h w) = Raise (permission_denied (cache_path name)) /\
   fst (upload_cv E file w) = error_body (str E (permission_denied (cache_path name))) /\
   calls_since w w' = [CallGet h] /\ cache_dir w' = cache_dir w2 /\
   tmp_dir w' = tmp_dir w /\ api_requests w' = api_requests w /\
   body = Raise (permission_denied (cache_path name))).
Proof.
  intros h name w2 w' p error_body body. subst body.
  destruct (endswith (lower (filename file)) ".pdf") eqn:Hpdf.
  2: { left. subst w'. rewrite upload_cv_rejected by exact Hpdf.
       unfold calls_since. wsimpl. rewrite drop_all. tauto. }
  right.
  set (wl := snd (get_from_cache E h
                    (add_log (INFO, "Generated hash for file: " +:+ h)
                       (add_log (INFO, "Received file upload: " +:+ filename file) w)))).
  assert (Hwl : now wl = now w /\ cache_dir wl = cache_dir w2 /\
                cache_dir_writable wl = cache_dir_writable w2 /\
                tmp_dir wl = tmp_dir w /\ api_requests wl = api_requests w /\
                calls wl = (calls w ++ [CallGet h])%list /\
                cache_dir_searchable wl = cache_dir_searchable w2).
  { pose proof (lookup_world_add_log h (INFO, "Generated hash for file: " +:+ h)
                  (add_log (INFO, "Received file upload: " +:+ filename file) w))
      as (A1 & A2 & A3 & A4 & A5 & A6 & A7).
    pose proof (lookup_world_add_log h
                  (INFO, "Received file upload: " +:+ filename file) w)
      as (B1 & B2 & B3 & B4 & B5 & B6 & B7).
    pose proof (get_from_cache_frame E h w) as (C1 & C2 & C3 & C4 & C5 & _).
    cbn zeta in *. fold wl in A1, A2, A3, A4, A5, A6, A7.
    fold w2 in B1, B2, B3, B4, B5, B6, B7.
    fold w2 in C1, C2, C3, C4, C5.
    rewrite A1, A2, A3, A4, A5, A6, A7, B1, B2, B3, B4, B5, B6, B7, C1, C3, C4, C5.
    tauto. }
  destruct Hwl as (Hnow & Hcd & Hcdw & Htmp & Hapi & Hcalls & Hsearch).
  assert (Hp : mkstemp E (dom (tmp_dir wl)) = p) by (subst p; rewrite Htmp; reflexivity).
  destruct (cache_miss E h w) eqn:Hmiss.
  - (* miss *)
    right.
    assert (Hbody : upload_cv_body E file
                      (add_log (INFO, "Received file upload: " +:+ filename file) w)
                    = process_upload E (file_bytes file) h wl).
    { rewrite upload_cv_body_miss by (rewrite cache_miss_add_log; exact Hmiss).
      reflexivity. }
    unfold calls_since. subst w'. rewrite upload_cv_accepted by exact Hpdf.
    unfold try_except. rewrite Hbody.
    destruct (PdfReader E (file_bytes file)) as [pages|e] eqn:Hpages.
    + destruct (pages_text pages "") as [cv_text|e] eqn:Htext.
      * destruct (String.eqb_spec cv_text "") as [->|Hne].
        -- right. left.
           pose proof (process_upload_empty_text E (file_bytes file) h wl pages
                         Hpages Htext) as Hx.
           cbn zeta in Hx. destruct (process_upload E (file_bytes file) h wl) as [r w3].
           wsimpl in Hx. destruct Hx as (-> & Ht3 & Hc3 & Ha3 & Hcalls3). wsimpl.
           split; [reflexivity|]. split; [reflexivity|]. exists pages.
           rewrite Hcalls3, Hcalls, Hp, <- app_assoc, drop_app_length, Hc3, Hcd, Ht3, Htmp,
             Ha3, Hapi.
           tauto.
        -- pose proof (process_upload_text E (file_bytes file) h wl pages cv_text
                         Hpages Htext Hne) as Hx.
           cbn zeta in Hx. rewrite Hapi, Hp in Hx.
           destruct (process_upload E (file_bytes file) h wl) as [r w3].
           wsimpl in Hx. destruct Hx as (Ht3 & Ha3 & Hx).
           destruct (structuring_outcome E (api_requests w) cv_text) as [json_data|e]
             eqn:Hs; destruct Hx as (-> & Hcalls3 & Hc3).
           ++ right. right. right. left.
              split; [reflexivity|]. split; [reflexivity|].
              exists pages, cv_text, json_data. wsimpl.
              assert (Hcw : can_write name wl = can_write name w2).
              { unfold can_write. rewrite Hcd, Hcdw, Hsearch. reflexivity. }
              assert (Hcr : can_read_back name wl = can_read_back name w2).
              { unfold can_read_back. rewrite Hcd. reflexivity. }
              fold name in Hc3.
              rewrite Hcalls3, Hcalls, <- app_assoc, drop_app_length, Hc3, Hcw, Hcr, Hcd,
                Hnow, Ht3, Htmp, Ha3.
              tauto.
           ++ right. right. left.
              split; [reflexivity|]. split; [reflexivity|].
              exists pages, cv_text, e. wsimpl.
              rewrite Hcalls3, Hcalls, <- app_assoc, drop_app_length, Hc3, Hcd, Ht3, Htmp,
                Ha3.
              tauto.
      * left.
        pose proof (process_upload_extraction_fails E (file_bytes file) h wl e
                      (or_intror (ex_intro _ pages (conj Hpages Htext)))) as Hx.
        cbn zeta in Hx. rewrite Hp in Hx.
        destruct (process_upload E (file_bytes file) h wl) as [r w3].
        wsimpl in Hx. destruct Hx as (-> & Ht3 & Hc3 & Ha3 & Hcalls3). wsimpl.
        split; [reflexivity|]. split; [reflexivity|]. exists e.
        rewrite Hcalls3, Hcalls, <- app_assoc, drop_app_length, Hc3, Hcd, Ht3, Htmp,
          Ha3, Hapi.
        split; [right; exists pages; tauto | tauto].
    + left.
      pose proof (process_upload_extraction_fails E (file_bytes file) h wl e
                    (or_introl Hpages)) as Hx.
      cbn zeta in Hx. rewrite Hp in Hx.
      destruct (process_upload E (file_bytes file) h wl) as [r w3].
      wsimpl in Hx. destruct Hx as (-> & Ht3 & Hc3 & Ha3 & Hcalls3). wsimpl.
      split; [reflexivity|]. split; [reflexivity|]. exists e.
      rewrite Hcalls3, Hcalls, <- app_assoc, drop_app_length, Hc3, Hcd, Ht3, Htmp,
        Ha3, Hapi.
      tauto.
  - pose proof Hmiss as Hnm. unfold cache_miss in Hmiss.
    destruct (fst (get_from_cache E h w)) as [[hit|]|e] eqn:Hget; try discriminate.
    + (* hit *)
      left. split; [reflexivity|].
      apply negb_false_iff in Hmiss. exists hit.
      assert (Hbody : upload_cv_body E file
                        (add_log (INFO, "Received file upload: " +:+ filename file) w) =
                      (Ok hit,
                       add_log (INFO, "Returning cached result for file " +:+ filename file)
                         wl)).
      { rewrite (upload_cv_body_hit E file _ hit).
        - reflexivity.
        - rewrite get_from_cache_fst_add_log. exact Hget.
        - exact Hmiss. }
      unfold calls_since. subst w'. rewrite upload_cv_accepted by exact Hpdf.
      unfold try_except. rewrite Hbody. wsimpl.
      rewrite Hcalls, drop_app_length, Hcd, Htmp, Hapi.
      subst w2. rewrite (hit_leaves_cache_dir h w hit Hget). tauto.
    + (* the lookup raises *)
      right. right. right. right. right.
      destruct (lookup_raises h w e Hget) as (Hs & -> & Hsame).
      assert (Hbody : upload_cv_body E file
                        (add_log (INFO, "Received file upload: " +:+ filename file) w) =
                      (Raise (permission_denied (cache_path name)), wl)).
      { rewrite (upload_cv_body_lookup_raises E file _
                   (permission_denied (cache_path name))).
        - reflexivity.
        - rewrite get_from_cache_fst_add_log. exact Hget. }
      unfold calls_since. subst w'. rewrite upload_cv_accepted by exact Hpdf.
      unfold try_except. rewrite Hbody. wsimpl.
      rewrite Hcalls, drop_app_length, Hcd, Htmp, Hapi. tauto.
Qed.

Ltac upload_paths file w :=
  let HP := fresh "HP" in
  pose proof (upload_cv_paths file w) as HP; cbn zeta in HP;
  destruct HP as
    [ (Ppdf & Pr & Pcalls & Pc & Pt & Pa)
    | [ (Ppdf & phit & Pget & Ptr & Pr & Pcalls & Pc & Pt & Pa & Pb)
      | [ (Ppdf & Pmiss & pe & Pfail & Pr & Pcalls & Pc & Pt & Pa & Pb)
        | [ (Ppdf & Pmiss & ppages & Pp & Ptext & Pr & Pcalls & Pc & Pt & Pa & Pb)
          | [ (Ppdf & Pmiss & ppages & ptext & pe & Pp & Ptext & Pne & Ps
               & Pr & Pcalls & Pc & Pt & Pa & Pb)
            | [ (Ppdf & Pmiss & ppages & ptext & pjson & Pp & Ptext & Pne & Ps
                 & Pr & Pcalls & Pc & Pt & Pa & Pb)
              | (Ppdf & Pnm & Psearch & Pget & Pr & Pcalls & Pc & Pt & Pa & Pb) ]]]]]].

Lemma hit_is_not_a_miss (h : string) (w : world) (hit : json) :
  fst (get_from_cache E h w) = Ok (Some hit) -> truthy hit = true ->
  cache_miss E h w = false.
Proof. intros Hget Htr. unfold cache_miss. rewrite Hget, Htr. reflexivity. Qed.

Lemma extraction_fails_or_returns (bytes : list Byte.byte) (e : exn)
    (pages : pdf_pages) (text : string) :
  PdfReader E bytes = Raise e \/
  (exists pages', PdfReader E bytes = Ok pages' /\ pages_text pages' "" = Raise e) ->
  PdfReader E bytes = Ok pages -> pages_text pages "" = Ok text -> False.
Proof.
  intros [Hf | (pages' & Hp' & Ht')] Hp Ht.
  - congruence.
  - rewrite Hp in Hp'. injection Hp' as <-. congruence.
Qed.

(** X1.  The cache key is the digest of the bytes and nothing else.  When the
    record of the digest is readable, not expired and truthy, an upload
    of those bytes under any [.pdf] name returns the record's value; it
    calls the lookup only, creates no temporary file, sends no request
    and leaves the cache directory as it is. *)
Theorem cached_upload_ignores_file_name (file : UploadFile) (w : world)
    (f : cache_record) (T : Q) (v : json) :
  let h := get_file_hash E (file_bytes file) in
  let w' := snd (upload_cv E file w) in
  endswith (lower (filename file)) ".pdf" = true ->
  cache_dir w !! (h +:+ ".pkl") = Some f ->
  readable f = true -> data f = Pickled T v ->
  (now w - T <= inject_Z CACHE_EXPIRY)%Q ->
  truthy v = true ->
  fst (upload_cv E file w) = Ok v /\
  calls_since w w' = [CallGet h] /\
  cache_dir w' = cache_dir w /\ tmp_dir w' = tmp_dir w /\
  api_requests w' = api_requests w /\
  (forall other : UploadFile,
     file_bytes other = file_bytes file ->
     endswith (lower (filename other)) ".pdf" = true ->
     fst (upload_cv E other w) = Ok v).
Proof.
  intros h w' Hname H Hread Hd Hage Hv. subst h w'.
  assert (Hany : forall g : UploadFile,
            file_bytes g = file_bytes file ->
            endswith (lower (filename g)) ".pdf" = true ->
            fst (upload_cv E g w) = Ok v /\
            calls_since w (snd (upload_cv E g w))
              = [CallGet (get_file_hash E (file_bytes file))] /\
            cache_dir (snd (upload_cv E g w)) = cache_dir w /\
            tmp_dir (snd (upload_cv E g w)) = tmp_dir w /\
            api_requests (snd (upload_cv E g w)) = api_requests w).
  { intros g Hbytes Hg.
    assert (Hget : fst (get_from_cache E (get_file_hash E (file_bytes file)) w)
                   = Ok (Some v)).
    { erewrite get_from_cache_hit by eassumption. reflexivity. }
    pose proof (hit_is_not_a_miss _ w v Hget Hv) as Hnm.
    upload_paths g w; rewrite ?Hbytes in *; try congruence.
    rewrite Hget in Pget. injection Pget as <-. tauto. }
  destruct (Hany file eq_refl Hname) as (A & B & C & D & F).
  repeat split; try assumption.
  intros other Hb Ho. apply (Hany other Hb Ho).
Qed.

(** A miss that goes through, as the paths lemma has it. *)
Lemma upload_cv_goes_through (file : UploadFile) (w : world)
    (pages : pdf_pages) (cv_text : string) (json_data : json) :
  let h := get_file_hash E (file_bytes file) in
  let name := h +:+ ".pkl" in
  let w2 := snd (get_from_cache E h w) in
  let w' := snd (upload_cv E file w) in
  endswith (lower (filename file)) ".pdf" = true ->
  cache_miss E h w = true ->
  PdfReader E (file_bytes file) = Ok pages ->
  pages_text pages "" = Ok cv_text ->
  cv_text <> "" ->
  structuring_outcome E (api_requests w) cv_text = Ok json_data ->
  fst (upload_cv E file w) = Ok json_data /\
  calls_since w w'
    = [CallGet h; CallExtract (mkstemp E (dom (tmp_dir w))); CallGenerate cv_text;
       CallSave h json_data] /\
  cache_dir w' =
    (if can_write name w2
     then <[name := mkFile (if picklable E json_data then Pickled (now w) json_data
                            else Corrupt (dump_leftover E json_data))
                           (can_read_back name w2) true]>
            (cache_dir w2)
     else cache_dir w2).
Proof.
  intros h name w2 w' Hname Hm Hpg Htx Hnz Hso. subst h name w2 w'.
  upload_paths file w; try congruence.
  - pose proof (hit_is_not_a_miss _ w phit Pget Ptr). congruence.
  - exfalso. eapply extraction_fails_or_returns; eassumption.
  - rewrite Hpg in Pp. injection Pp as <-.
    rewrite Htx in Ptext. injection Ptext as <-.
    rewrite Hso in Ps. injection Ps as <-. tauto.
Qed.

(** An upload whose record is readable, not expired and truthy is
    answered from it. *)
Lemma upload_cv_served (file : UploadFile) (w : world)
    (f : cache_record) (T : Q) (v : json) :
  let h := get_file_hash E (file_bytes file) in
  let w' := snd (upload_cv E file w) in
  endswith (lower (filename file)) ".pdf" = true ->
  cache_dir w !! (h +:+ ".pkl") = Some f ->
  readable f = true -> data f = Pickled T v ->
  (now w - T <= inject_Z CACHE_EXPIRY)%Q ->
  truthy v = true ->
  fst (upload_cv E file w) = Ok v /\
  calls_since w w' = [CallGet h] /\
  cache_dir w' = cache_dir w /\ tmp_dir w' = tmp_dir w /\
  api_requests w' = api_requests w.
Proof.
  intros h w' Hname H Hread Hd Hage Hv. subst h w'.
  assert (Hget : fst (get_from_cache E (get_file_hash E (file_bytes file)) w)
                 = Ok (Some v)).
  { erewrite get_from_cache_hit by eassumption. reflexivity. }
  pose proof (hit_is_not_a_miss _ w v Hget Hv) as Hnm.
  upload_paths file w; try congruence.
  rewrite Hget in Pget. injection Pget as <-. tauto.
Qed.

(** A value that a lookup returns is the value of a readable record. *)
Lemma hit_has_record (k : string) (w : world) (v : json) :
  fst (get_from_cache E k w) = Ok (Some v) ->
  exists f T,
    cache_dir w !! (k +:+ ".pkl") = Some f /\ readable f = true /\ data f = Pickled T v.
Proof.
  rewrite get_from_cache_result.
  destruct (cache_dir w !! (k +:+ ".pkl")) as [f|];
    [|destruct (cache_dir_searchable w); discriminate].
  destruct (readable f) eqn:Hr; [|discriminate].
  destruct (data f) as [T v'|e] eqn:Hd; [|discriminate].
  destruct (Qgtb _ _); [discriminate|].
  intros Hv. injection Hv as <-. exists f, T. repeat split; assumption.
Qed.

(** A record that can be written and read back before the lookup can be
    written and read back after it: the lookup removes at most that
    record, and only from a directory that allows its creation. *)
Lemma can_store_after_lookup (k : string) (w : world) :
  let w2 := snd (get_from_cache E k w) in
  can_write (k +:+ ".pkl") w = true -> can_read_back (k +:+ ".pkl") w = true ->
  can_write (k +:+ ".pkl") w2 = true /\ can_read_back (k +:+ ".pkl") w2 = true.
Proof.
  intros w2 Hw Hr.
  pose proof (can_write_searchable _ _ Hw) as Hs.
  pose proof (get_from_cache_frame E k w) as (_ & Hdw & _ & _ & _ & _ & Hsearch).
  pose proof (get_from_cache_cache_dir E k w) as Hc.
  fold w2 in Hdw, Hsearch, Hc.
  unfold can_write, can_read_back in *. rewrite Hc, Hdw, Hsearch. clear Hc.
  destruct (cache_dir w !! (k +:+ ".pkl")) as [f|] eqn:H.
  - rewrite Hr.
    destruct (data f) as [T v|e]; [|rewrite H; tauto].
    destruct (Qgtb _ _); cbn; [|rewrite H; tauto].
    destruct (cache_dir_writable w) eqn:Hd; [|rewrite H; tauto].
    rewrite lookup_delete_eq, Hs. tauto.
  - rewrite H. tauto.
Qed.

(** C5, as amended.  Take an upload under a [.pdf] name whose guarded
    block returns a truthy result [r], and, when it was not the cache
    that served [r], let the record of the digest be one that can be
    written and read back and [r] a value that [pickle.dump] serialises.
    Then the upload leaves [r] in a readable record of the digest, and a
    second upload of the same file, no later than seven days after the
    time stamped on that record, returns [r] again; the only helper it
    calls is the lookup, so neither [extract_text_from_pdf] nor
    [generate_json_from_text]; no request is sent and no file changes. *)
Theorem repeat_upload_is_served_from_cache (file : UploadFile) (w : world)
    (r : json) (t : Q) :
  let h := get_file_hash E (file_bytes file) in
  let name := h +:+ ".pkl" in
  let w1 := snd (upload_cv E file w) in
  let w2 := snd (upload_cv E file (set_now t w1)) in
  endswith (lower (filename file)) ".pdf" = true ->
  fst (upload_cv_body E file
         (add_log (INFO, "Received file upload: " +:+ filename file) w)) = Ok r ->
  truthy r = true ->
  (cache_miss E h w = true ->
   can_write name w = true /\ can_read_back name w = true /\ picklable E r = true) ->
  (forall f T v,
     cache_dir w1 !! name = Some f -> data f = Pickled T v ->
     (t - T <= inject_Z CACHE_EXPIRY)%Q) ->
  fst (upload_cv E file w) = Ok r /\
  (exists f T,
     cache_dir w1 !! name = Some f /\ readable f = true /\ data f = Pickled T r) /\
  fst (upload_cv E file (set_now t w1)) = Ok r /\
  calls_since w1 w2 = [CallGet h] /\
  existsb is_processing_call (calls_since w1 w2) = false /\
  api_requests w2 = api_requests w1 /\
  cache_dir w2 = cache_dir w1 /\
  tmp_dir w2 = tmp_dir w1.
Proof.
  intros h name w1 w2 Hpdf Hbody Hr Hstore Httl.
  assert (Hrec : fst (upload_cv E file w) = Ok r /\
                 exists f T, cache_dir w1 !! name = Some f /\ readable f = true /\
                             data f = Pickled T r).
  { subst w1 name h. upload_paths file w; try congruence.
    - rewrite Hbody in Pb. injection Pb as ->.
      split; [exact Pr|]. rewrite Pc. apply hit_has_record. exact Pget.
    - rewrite Hbody in Pb. injection Pb as ->.
      split; [exact Pr|].
      destruct (Hstore Pmiss) as (Hw & Hrb & Hpk).
      destruct (can_store_after_lookup _ w Hw Hrb) as (Hw2 & Hrb2).
      rewrite Pc, Hw2, Hrb2, Hpk.
      eexists. exists (now w). split; [apply lookup_insert_eq|]. split; reflexivity. }
  destruct Hrec as (Hfirst & f & T & Hf & Hread & Hd).
  pose proof (Httl f T r Hf Hd) as Hage.
  destruct (upload_cv_served file (set_now t w1) f T r Hpdf) as (A & B & C & D & F);
    try assumption.
  fold h w2 in A, B, C, D, F.
  assert (Hcalls : calls_since w1 w2 = [CallGet h]) by exact B.
  split; [exact Hfirst|]. split; [exists f, T; tauto|]. split; [exact A|].
  split; [exact Hcalls|]. rewrite Hcalls. repeat split; assumption.
Qed.

(** X2.  A miss that goes through leaves its result in the cache.  When the
    text extracted is not empty, the structuring returns [json_data],
    the record can be written and [pickle.dump] serialises [json_data],
    the response is [json_data], the record holds it stamped with the
    time of the request, and, the record being readable, a lookup at any
    time within seven days of the request returns it. *)
Theorem fresh_upload_is_stored (file : UploadFile) (w : world)
    (pages : pdf_pages) (cv_text : string) (json_data : json) :
  let h := get_file_hash E (file_bytes file) in
  let name := h +:+ ".pkl" in
  let w2 := snd (get_from_cache E h w) in
  let w' := snd (upload_cv E file w) in
  endswith (lower (filename file)) ".pdf" = true ->
  cache_miss E h w = true ->
  PdfReader E (file_bytes file) = Ok pages ->
  pages_text pages "" = Ok cv_text ->
  cv_text <> "" ->
  structuring_outcome E (api_requests w) cv_text = Ok json_data ->
  can_write name w2 = true ->
  picklable E json_data = true ->
  fst (upload_cv E file w) = Ok json_data /\
  cache_dir w' !! name
    = Some (mkFile (Pickled (now w) json_data) (can_read_back name w2) true) /\
  (forall t : Q,
     can_read_back name w2 = true ->
     (t - now w <= inject_Z CACHE_EXPIRY)%Q ->
     fst (get_from_cache E h (set_now t w')) = Ok (Some json_data)).
Proof.
  intros h name w2 w' Hname Hm Hpg Htx Hnz Hso Hcw Hpk.
  destruct (upload_cv_goes_through file w pages cv_text json_data
              Hname Hm Hpg Htx Hnz Hso) as (Hres & _ & Hcache).
  fold h name w2 w' in Hres, Hcache. rewrite Hcw, Hpk in Hcache.
  assert (Hrec : cache_dir w' !! name
                 = Some (mkFile (Pickled (now w) json_data) (can_read_back name w2) true)).
  { rewrite Hcache. apply lookup_insert_eq. }
  split; [exact Hres|]. split; [exact Hrec|].
  intros t Hrb Ht.
  erewrite get_from_cache_hit;
    [reflexivity | wsimpl; exact Hrec | exact Hrb | reflexivity | exact Ht].
Qed.

(** X3.  The store is best effort.  When the record cannot be written, a miss
    that goes through still answers with the structured result:
    [save_to_cache] was called with it, and the cache directory is what
    the lookup left. *)
Theorem store_failure_does_not_fail_the_request (file : UploadFile) (w : world)
    (pages : pdf_pages) (cv_text : string) (json_data : json) :
  let h := get_file_hash E (file_bytes file) in
  let name := h +:+ ".pkl" in
  let w2 := snd (get_from_cache E h w) in
  let w' := snd (upload_cv E file w) in
  endswith (lower (filename file)) ".pdf" = true ->
  cache_miss E h w = true ->
  PdfReader E (file_bytes file) = Ok pages ->
  pages_text pages "" = Ok cv_text ->
  cv_text <> "" ->
  structuring_outcome E (api_requests w) cv_text = Ok json_data ->
  can_write name w2 = false ->
  fst (upload_cv E file w) = Ok json_data /\
  CallSave h json_data ∈ calls_since w w' /\
  cache_dir w' = cache_dir w2.
Proof.
  intros h name w2 w' Hname Hm Hpg Htx Hnz Hso Hcw.
  destruct (upload_cv_goes_through file w pages cv_text json_data
              Hname Hm Hpg Htx Hnz Hso) as (Hres & Hcs & Hcache).
  fold h name w2 w' in Hres, Hcs, Hcache. rewrite Hcw in Hcache.
  split; [exact Hres|]. split; [|exact Hcache].
  rewrite Hcs, !elem_of_cons. auto 10.
Qed.

(** X4.  An upload sends at most one request to the completion service, and
    it sends one only on a miss whose extraction returned a text that is
    not empty: a refused file name, a cache hit, a failed extraction and
    an empty text cost nothing. *)
Theorem at_most_one_request_per_upload (file : UploadFile) (w : world) :
  let h := get_file_hash E (file_bytes file) in
  let w' := snd (upload_cv E file w) in
  (api_requests w' = api_requests w \/ api_requests w' = S (api_requests w)) /\
  (api_requests w' = S (api_requests w) ->
   endswith (lower (filename file)) ".pdf" = true /\
   cache_miss E h w = true /\
   exists pages cv_text,
     PdfReader E (file_bytes file) = Ok pages /\
     pages_text pages "" = Ok cv_text /\ cv_text <> "" /\
     CallGenerate cv_text ∈ calls_since w w').
Proof.
  cbn zeta.
  upload_paths file w; rewrite Pa; (split; [tauto|]); try (intros Habs; lia).
  - intros _. split; [exact Ppdf|]. split; [exact Pmiss|].
    exists ppages, ptext. rewrite Pcalls. repeat split; try assumption.
    rewrite !elem_of_cons. auto 10.
  - intros _. split; [exact Ppdf|]. split; [exact Pmiss|].
    exists ppages, ptext. rewrite Pcalls. repeat split; try assumption.
    rewrite !elem_of_cons. auto 10.
Qed.

(** X5.  An upload touches no cache record but the one of its own digest. *)
Theorem upload_leaves_other_records (file : UploadFile) (w : world) (other : string) :
  other <> get_file_hash E (file_bytes file) +:+ ".pkl" ->
  cache_dir (snd (upload_cv E file w)) !! other = cache_dir w !! other.
Proof.
  intros Hother.
  assert (H2 : cache_dir (snd (get_from_cache E (get_file_hash E (file_bytes file)) w))
                 !! other = cache_dir w !! other).
  { destruct (get_from_cache_frame E (get_file_hash E (file_bytes file)) w)
      as (_ & _ & _ & _ & _ & [-> | ->] & _); [reflexivity|].
    apply lookup_delete_ne. congruence. }
  upload_paths file w; rewrite Pc; try exact H2; try reflexivity.
  destruct (can_write _ _); [|exact H2].
  rewrite lookup_insert_ne by congruence. exact H2.
Qed.

(** X6.  An upload changes the cache directory in three ways only: its
    lookup may purge the expired record of the digest; the value that
    the upload returns may be stored under the digest, stamped with the
    time of the request; and when that value is one that [pickle.dump]
    does not serialise, the record of the digest may be left without a
    pickle that loads.
    [save_to_cache] is called with no other value, and a request whose
    guarded block raises stores nothing. *)
Theorem only_the_response_is_stored (file : UploadFile) (w : world) :
  let h := get_file_hash E (file_bytes file) in
  let w2 := snd (get_from_cache E h w) in
  let w' := snd (upload_cv E file w) in
  (cache_dir w' = cache_dir w \/ cache_dir w' = cache_dir w2 \/
   (exists json_data read_bit,
      fst (upload_cv E file w) = Ok json_data /\ picklable E json_data = true /\
      cache_dir w' = <[h +:+ ".pkl" := mkFile (Pickled (now w) json_data) read_bit true]>
                       (cache_dir w2)) \/
   (exists json_data read_bit,
      fst (upload_cv E file w) = Ok json_data /\ picklable E json_data = false /\
      cache_dir w' = <[h +:+ ".pkl" :=
                         mkFile (Corrupt (dump_leftover E json_data)) read_bit true]>
                       (cache_dir w2))) /\
  (forall k v, CallSave k v ∈ calls_since w w' ->
               k = h /\ fst (upload_cv E file w) = Ok v) /\
  (forall e,
     endswith (lower (filename file)) ".pdf" = true ->
     fst (upload_cv_body E file
            (add_log (INFO, "Received file upload: " +:+ filename file) w)) = Raise e ->
     cache_dir w' = cache_dir w2 /\ (forall k v, CallSave k v ∉ calls_since w w')).
Proof.
  cbn zeta. split; [|split].
  - upload_paths file w; rewrite Pc;
      try (left; reflexivity); try (right; left; reflexivity).
    destruct (can_write _ _); [|right; left; reflexivity].
    right. right. destruct (picklable E pjson) eqn:Hpk.
    + left. exists pjson. eexists. repeat split; [exact Pr | exact Hpk].
    + right. exists pjson. eexists. repeat split; [exact Pr | exact Hpk].
  - intros k v Hin.
    upload_paths file w; rewrite Pcalls in Hin;
      rewrite ?elem_of_cons, ?elem_of_nil in Hin;
      try (repeat (destruct Hin as [Hin|Hin]; try discriminate); tauto).
    repeat (destruct Hin as [Hin|Hin]; try discriminate); [|tauto].
    injection Hin as -> ->. split; [reflexivity | exact Pr].
  - intros e Hname He.
    upload_paths file w; try congruence;
      rewrite Pcalls, Pc; (split; [reflexivity|]); intros k v;
      rewrite !not_elem_of_cons; repeat split; try discriminate; apply not_elem_of_nil.
Qed.

(** X7.  The temporary directory.  An upload changes it exactly when, on the
    miss branch, the extraction raises: then it has gained one file, the
    one the handler created, holding the uploaded bytes.  On every other
    path it ends as it began. *)
Theorem temp_dir_changes_iff_extraction_raises (file : UploadFile) (w : world) :
  let h := get_file_hash E (file_bytes file) in
  let w' := snd (upload_cv E file w) in
  let extraction_raises :=
    exists e,
      PdfReader E (file_bytes file) = Raise e \/
      exists pages, PdfReader E (file_bytes file) = Ok pages /\
                    pages_text pages "" = Raise e in
  (tmp_dir w' <> tmp_dir w <->
   endswith (lower (filename file)) ".pdf" = true /\ cache_miss E h w = true /\
   extraction_raises) /\
  (tmp_dir w' <> tmp_dir w ->
   tmp_dir w' = <[mkstemp E (dom (tmp_dir w)) := file_bytes file]> (tmp_dir w) /\
   tmp_dir w !! mkstemp E (dom (tmp_dir w)) = None).
Proof.
  cbn zeta.
  assert (Hleak : <[mkstemp E (dom (tmp_dir w)) := file_bytes file]> (tmp_dir w)
                  <> tmp_dir w).
  { intros Heq.
    apply (f_equal (fun m => m !! mkstemp E (dom (tmp_dir w)))) in Heq.
    rewrite lookup_insert_eq, mkstemp_unused in Heq. discriminate. }
  upload_paths file w; rewrite Pt.
  - split; [|tauto]. split; [tauto|]. intros (Hname & _). congruence.
  - split; [|tauto]. split; [tauto|]. intros (_ & Hm & _).
    pose proof (hit_is_not_a_miss _ w phit Pget Ptr). congruence.
  - split.
    + split; [|intros _; exact Hleak]. intros _.
      split; [exact Ppdf|]. split; [exact Pmiss|]. exists pe. exact Pfail.
    + intros _. split; [reflexivity | apply mkstemp_unused].
  - split; [|tauto]. split; [tauto|]. intros (_ & _ & e & Hfail).
    exfalso. eapply extraction_fails_or_returns; eassumption.
  - split; [|tauto]. split; [tauto|]. intros (_ & _ & e & Hfail).
    exfalso. eapply extraction_fails_or_returns; eassumption.
  - split; [|tauto]. split; [tauto|]. intros (_ & _ & e & Hfail).
    exfalso. eapply extraction_fails_or_returns; eassumption.
  - split; [|tauto]. split; [tauto|]. intros (_ & Hm & _). congruence.
Qed.

(** X8.  The helpers are called in one order, and each only after the one
    before it went well: the calls of an upload are an initial segment
    of lookup, extraction, structuring, store.  The store is reached
    only by the upload that returns the structured result. *)
Theorem upload_call_sequence (file : UploadFile) (w : world) :
  let h := get_file_hash E (file_bytes file) in
  let w' := snd (upload_cv E file w) in
  let p := mkstemp E (dom (tmp_dir w)) in
  calls_since w w' = [] \/
  calls_since w w' = [CallGet h] \/
  calls_since w w' = [CallGet h; CallExtract p] \/
  (exists cv_text,
     cv_text <> "" /\
     calls_since w w' = [CallGet h; CallExtract p; CallGenerate cv_text]) \/
  (exists cv_text json_data,
     cv_text <> "" /\
     fst (upload_cv E file w) = Ok json_data /\
     calls_since w w'
       = [CallGet h; CallExtract p; CallGenerate cv_text; CallSave h json_data]).
Proof.
  cbn zeta.
  upload_paths file w; rewrite Pcalls.
  - left. reflexivity.
  - right. left. reflexivity.
  - right. right. left. reflexivity.
  - right. right. left. reflexivity.
  - right. right. right. left. exists ptext. split; [exact Pne | reflexivity].
  - right. right. right. right. exists ptext, pjson.
    split; [exact Pne|]. split; [exact Pr | reflexivity].
  - right. left. reflexivity.
Qed.

End Paths.

(* ================================================================== *)
(** * Start-up *)

(** X16.  The process starts exactly when [OPENAI_API_KEY] is set to a string
    that is not empty; the client then gets that key and the base URL of
    the environment, the public end point standing in only when
    [OPENAI_BASE_URL] is unset (an empty value is passed on as it is).
    Otherwise the start-up logs at ERROR and raises [ValueError]. *)
Theorem startup_requires_api_key (environ : gmap string string) (w : world) :
  (forall c,
     fst (startup environ w) = Ok c <->
     exists key,
       environ !! "OPENAI_API_KEY" = Some key /\ key <> "" /\
       c = mkClient key
             (match environ !! "OPENAI_BASE_URL" with
              | Some url => Some url
              | None => Some "https://api.openai.com/v1/"
              end)) /\
  (environ !! "OPENAI_API_KEY" = None \/ environ !! "OPENAI_API_KEY" = Some "" ->
   startup environ w =
     (Raise (PyError "ValueError" "OPENAI_API_KEY must be set in environment variables"),
      add_log (ERROR, "OPENAI_API_KEY not found in environment variables") w)) /\
  (forall c, fst (startup environ w) = Ok c -> snd (startup environ w) = w).
Proof.
  unfold startup, os_getenv. unfold_py. wsimpl.
  destruct (environ !! "OPENAI_API_KEY") as [key|] eqn:Hkey.
  - destruct (String.eqb_spec key "") as [->|Hne].
    + split; [|split].
      * intros c. split; [discriminate|]. intros (key & Hk & Hne & _). congruence.
      * intros _. reflexivity.
      * intros c Hc. discriminate.
    + split; [|split].
      * intros c. split.
        -- intros Hc. injection Hc as <-. exists key. repeat split; assumption.
        -- intros (key' & Hk & _ & ->). injection Hk as <-. reflexivity.
      * intros [Hk | Hk]; [discriminate | congruence].
      * intros c _. reflexivity.
  - split; [|split].
    + intros c. split; [discriminate|]. intros (key & Hk & _). discriminate.
    + intros _. reflexivity.
    + intros c Hc. discriminate.
Qed.

(* ================================================================== *)
(** * More statements on the sample inputs *)

(** The scenario of the specification: the first upload of [cv.pdf]
    leaves its result in the cache, and the second, a minute later, is
    answered from it. *)
Lemma repeat_upload_is_served_from_cache_witness :
  let w1 := snd (upload_cv john_doe_externals cv_pdf fresh_world) in
  let w2 := snd (upload_cv john_doe_externals cv_pdf (set_now 1060 w1)) in
  fst (upload_cv john_doe_externals cv_pdf fresh_world) = Ok john_doe /\
  (exists f T,
     cache_dir w1 !! (sample_hash +:+ ".pkl") = Some f /\ readable f = true /\
     data f = Pickled T john_doe) /\
  fst (upload_cv john_doe_externals cv_pdf (set_now 1060 w1)) = Ok john_doe /\
  calls_since w1 w2 = [CallGet sample_hash] /\
  existsb is_processing_call (calls_since w1 w2) = false /\
  api_requests w2 = api_requests w1 /\
  cache_dir w2 = cache_dir w1 /\
  tmp_dir w2 = tmp_dir w1.
Proof.
  apply (repeat_upload_is_served_from_cache john_doe_externals cv_pdf fresh_world
           john_doe 1060).
  - reflexivity.
  - vm_compute. reflexivity.
  - reflexivity.
  - intros _. repeat split; vm_compute; reflexivity.
  - intros f T v Hf Hd. vm_compute in Hf. injection Hf as <-.
    cbn in Hd. injection Hd as <- _. vm_compute. discriminate.
Defined.

(** C5 as stated fails: in a cache directory that refuses the creation
    of the record, the first upload returns its result without storing
    it, and the second upload of the same bytes, though it returns the
    same result, calls the extractor and the structuring service
    again. *)
Lemma repeat_upload_read_only :
  let w1 := snd (upload_cv john_doe_externals cv_pdf read_only_world) in
  let w2 := snd (upload_cv john_doe_externals cv_pdf (set_now 1060 w1)) in
  ~ (fst (upload_cv john_doe_externals cv_pdf (set_now 1060 w1))
       = fst (upload_cv john_doe_externals cv_pdf read_only_world) /\
     existsb is_processing_call (calls_since w1 w2) = false).
Proof. vm_compute. intros [_ H]. discriminate H. Qed.

(** What the second upload calls there. *)
Lemma repeat_upload_read_only_calls :
  let w1 := snd (upload_cv john_doe_externals cv_pdf read_only_world) in
  let w2 := snd (upload_cv john_doe_externals cv_pdf (set_now 1060 w1)) in
  fst (upload_cv john_doe_externals cv_pdf read_only_world) = Ok john_doe /\
  calls_since w1 w2 =
    [CallGet sample_hash; CallExtract "0";
     CallGenerate ("John Doe, Engineer..." +:+ LF);
     CallSave sample_hash john_doe].
Proof. vm_compute. split; reflexivity. Qed.

(** The same happens when the structuring service answers with the
    empty object: the first upload returns it and stores it, and the
    second upload finds it, takes it for a miss and processes the bytes
    again. *)
Lemma repeat_upload_of_empty_result :
  let w1 := snd (upload_cv empty_result_externals cv_pdf fresh_world) in
  let w2 := snd (upload_cv empty_result_externals cv_pdf (set_now 1060 w1)) in
  fst (upload_cv empty_result_externals cv_pdf fresh_world) = Ok (JDict []) /\
  cache_dir w1 !! (sample_hash +:+ ".pkl") = Some (mkFile (Pickled 1000 (JDict [])) true true) /\
  calls_since w1 w2 =
    [CallGet sample_hash; CallExtract "0";
     CallGenerate ("John Doe, Engineer..." +:+ LF);
     CallSave sample_hash (JDict [])] /\
  existsb is_processing_call (calls_since w1 w2) = true.
Proof. vm_compute. repeat split; reflexivity. Qed.

(** And when the first upload fails, here on bytes that PyPDF2 rejects,
    nothing is stored and the second upload calls the extractor
    again. *)
Lemma repeat_upload_of_failed_upload :
  let w1 := snd (upload_cv unparseable_externals cv_pdf fresh_world) in
  let w2 := snd (upload_cv unparseable_externals cv_pdf (set_now 1060 w1)) in
  cache_dir w1 = ∅ /\
  calls_since w1 w2 = [CallGet sample_hash; CallExtract "1"] /\
  existsb is_processing_call (calls_since w1 w2) = true.
Proof. vm_compute. repeat split; reflexivity. Qed.

(** So it is for a record that can be written but not read back: the
    first upload stores its result, and the second cannot read it. *)
Lemma repeat_upload_of_unreadable_record :
  let w1 := snd (upload_cv john_doe_externals cv_pdf write_only_world) in
  let w2 := snd (upload_cv john_doe_externals cv_pdf (set_now 1060 w1)) in
  fst (upload_cv john_doe_externals cv_pdf write_only_world) = Ok john_doe /\
  cache_dir w1 !! (sample_hash +:+ ".pkl")
    = Some (mkFile (Pickled 1000 john_doe) false true) /\
  existsb is_processing_call (calls_since w1 w2) = true.
Proof. vm_compute. repeat split; reflexivity. Qed.

(** For a result that pickle does not serialise: the first upload
    returns it, and leaves an empty record. *)
Lemma repeat_upload_of_deep_result :
  let w1 := snd (upload_cv deep_answer_externals cv_pdf fresh_world) in
  let w2 := snd (upload_cv deep_answer_externals cv_pdf (set_now 1060 w1)) in
  fst (upload_cv deep_answer_externals cv_pdf fresh_world) = Ok (nested 600) /\
  truthy (nested 600) = true /\
  cache_dir w1 !! (sample_hash +:+ ".pkl")
    = Some (mkFile (Corrupt ran_out_of_input) true true) /\
  existsb is_processing_call (calls_since w1 w2) = true.
Proof. vm_compute. repeat split; reflexivity. Qed.

(** And for a second upload that comes a second after the seven days. *)
Lemma repeat_upload_after_expiry :
  let w1 := snd (upload_cv john_doe_externals cv_pdf fresh_world) in
  let w2 := snd (upload_cv john_doe_externals cv_pdf (set_now 605801 w1)) in
  cache_dir w1 !! (sample_hash +:+ ".pkl")
    = Some (mkFile (Pickled 1000 john_doe) true true) /\
  existsb is_processing_call (calls_since w1 w2) = true.
Proof. vm_compute. repeat split; reflexivity. Qed.

(** A cache directory that may not be searched: the lookup raises, and
    the upload of the scenario is answered with the error instead of
    being processed. *)
Example upload_in_unsearchable_cache :
  fst (upload_cv john_doe_externals cv_pdf locked_world)
    = Ok (JDict [("error",
                  JStr ("[Errno 13] Permission denied: 'cv_cache/" +:+ sample_hash
                        +:+ ".pkl'"))]) /\
  calls (snd (upload_cv john_doe_externals cv_pdf locked_world)) = [CallGet sample_hash].
Proof. vm_compute. split; reflexivity. Qed.

(** A record looked up at the very end of its seven days is served. *)
Lemma hit_iff_age_within_expiry_witness :
  fst (get_from_cache cache_externals "abc" boundary_world) = Ok (Some john_doe).
Proof.
  destruct (hit_iff_age_within_expiry cache_externals "abc" boundary_world
              (mkFile (Pickled 1000 john_doe) true true) 1000 john_doe)
    as (_ & _ & Hhit & _).
  - reflexivity.
  - reflexivity.
  - reflexivity.
  - apply Hhit. vm_compute. discriminate.
Defined.

(** Storing under [abd] leaves the expired record [abc.pkl] where it
    is. *)
Lemma store_leaves_other_keys_witness :
  cache_dir (snd (save_to_cache cache_externals "abd" john_doe stale_world)) !! "abc.pkl"
    = cache_dir stale_world !! "abc.pkl".
Proof.
  apply (store_leaves_other_keys cache_externals "abd" "abc" john_doe stale_world).
  discriminate.
Defined.

(** The lookup of a record that may not be read logs the refusal. *)
Lemma lookup_logging_witness :
  log (snd (get_from_cache cache_externals "abc" unreadable_world))
    = [(ERROR, "Error reading cache: [Errno 13] Permission denied: 'cv_cache/abc.pkl'")].
Proof.
  destruct (lookup_logging cache_externals "abc" unreadable_world) as (_ & _ & H).
  apply (H (mkFile (Pickled 1000 john_doe) false true)); reflexivity.
Defined.

(** The answer [42] parses and is refused. *)
Lemma scalar_answers_are_refused_witness :
  fst (generate_json_from_text scalar_answer_externals "John Doe" fresh_world)
    = Raise (PyError "Exception" "OpenAI API error: object of type 'int' has no len()").
Proof.
  apply (scalar_answers_are_refused scalar_answer_externals "John Doe" fresh_world
           "42" (JInt 42)); reflexivity.
Defined.

(** The bytes cached as [cv.pdf] are served under another name. *)
Lemma cached_upload_ignores_file_name_witness :
  fst (upload_cv john_doe_externals cv_upper john_doe_cached_world) = Ok john_doe /\
  calls_since john_doe_cached_world
    (snd (upload_cv john_doe_externals cv_upper john_doe_cached_world))
    = [CallGet sample_hash].
Proof.
  destruct (cached_upload_ignores_file_name john_doe_externals cv_upper
              john_doe_cached_world (mkFile (Pickled 1000 john_doe) true true)
              1000 john_doe)
    as (Hres & Hcalls & _).
  - reflexivity.
  - vm_compute. reflexivity.
  - reflexivity.
  - reflexivity.
  - vm_compute. discriminate.
  - reflexivity.
  - split; [exact Hres | exact Hcalls].
Defined.

(** The first upload of the scenario leaves [john_doe] in the cache,
    where a lookup a day later finds it. *)
Lemma fresh_upload_is_stored_witness :
  fst (upload_cv john_doe_externals cv_pdf fresh_world) = Ok john_doe /\
  fst (get_from_cache john_doe_externals sample_hash
         (set_now 87400 (snd (upload_cv john_doe_externals cv_pdf fresh_world))))
    = Ok (Some john_doe).
Proof.
  destruct (fresh_upload_is_stored john_doe_externals cv_pdf fresh_world
              [Ok "John Doe, Engineer..."] ("John Doe, Engineer..." +:+ LF) john_doe)
    as (Hres & _ & Hlater).
  - reflexivity.
  - vm_compute. reflexivity.
  - reflexivity.
  - reflexivity.
  - discriminate.
  - reflexivity.
  - vm_compute. reflexivity.
  - reflexivity.
  - split; [exact Hres|]. apply Hlater.
    + vm_compute. reflexivity.
    + vm_compute. discriminate.
Defined.

(** In a cache directory that refuses the record the scenario still
    answers with [john_doe]. *)
Lemma store_failure_does_not_fail_the_request_witness :
  fst (upload_cv john_doe_externals cv_pdf read_only_world) = Ok john_doe /\
  cache_dir (snd (upload_cv john_doe_externals cv_pdf read_only_world)) = ∅.
Proof.
  destruct (store_failure_does_not_fail_the_request john_doe_externals cv_pdf
              read_only_world [Ok "John Doe, Engineer..."]
              ("John Doe, Engineer..." +:+ LF) john_doe)
    as (Hres & _ & Hcache).
  - reflexivity.
  - vm_compute. reflexivity.
  - reflexivity.
  - reflexivity.
  - discriminate.
  - reflexivity.
  - vm_compute. reflexivity.
  - split; [exact Hres | exact Hcache].
Defined.

(** An upload of the sample bytes leaves [abc.pkl] alone. *)
Lemma upload_leaves_other_records_witness :
  cache_dir (snd (upload_cv john_doe_externals cv_pdf john_doe_cached_world)) !! "abc.pkl"
    = cache_dir john_doe_cached_world !! "abc.pkl".
Proof.
  apply (upload_leaves_other_records john_doe_externals cv_pdf john_doe_cached_world
           "abc.pkl").
  discriminate.
Defined.

(** With a key and no base URL the client gets the public end point;
    with an empty key the start-up raises. *)
Lemma startup_requires_api_key_witness :
  fst (startup environ_with_key fresh_world)
    = Ok (mkClient "sk-test" (Some "https://api.openai.com/v1/")) /\
  fst (startup environ_empty_key fresh_world)
    = Raise (PyError "ValueError" "OPENAI_API_KEY must be set in environment variables").
Proof.
  split.
  - apply (proj1 (startup_requires_api_key environ_with_key fresh_world)).
    exists "sk-test". repeat split. discriminate.
  - destruct (startup_requires_api_key environ_empty_key fresh_world) as (_ & H & _).
    rewrite H; [reflexivity | right; reflexivity].
Defined.

